(** * The scene composer [Lego] and the debug binder [Debug]

    A shallow embedding of the two classes of the repository,
    [Debug] (the dat.GUI parameter binder) and [Lego] (the three.js scene
    composer), and the properties their specification states about them.

    JavaScript numbers are IEEE 754 binary64 values: they are embedded as
    Rocq's primitive floats, so that [nan], the two zeros and the infinities
    behave as they do in the program.  Objects live in a store indexed by
    references; a reference is the identity of an object.  A call that may
    throw is a computation in a state-and-exception monad: the state reached
    when the exception is raised is kept, as in JavaScript. *)

From Stdlib Require Import ZArith Floats.
From stdpp Require Import gmap strings list.

Set Default Proof Using "Type".

(** ** Computations that may throw *)

(** [throw new Error(message)] *)
Inductive exn : Type :=
| Error (message : string).

Inductive outcome (A : Type) : Type :=
| Returned (a : A)
| Thrown (e : exn).
Arguments Returned {A} a.
Arguments Thrown {A} e.

Definition M (S A : Type) : Type := S → outcome A * S.

Definition ret {S A : Type} (a : A) : M S A := λ s, (Returned a, s).

Definition throw {S A : Type} (e : exn) : M S A := λ s, (Thrown e, s).

Definition bind {S A B : Type} (m : M S A) (k : A → M S B) : M S B :=
  λ s, match m s with
       | (Returned a, s') => k a s'
       | (Thrown e, s') => (Thrown e, s')
       end.

Definition gets {S A : Type} (f : S → A) : M S A := λ s, (Returned (f s), s).

Definition modify {S : Type} (f : S → S) : M S unit := λ s, (Returned tt, f s).

Declare Scope js_scope.
Delimit Scope js_scope with js.
Notation "x <- m ;; k" := (bind m (λ x, k))
  (at level 100, m at next level, right associativity) : js_scope.
Notation "m ;; k" := (bind m (λ _, k))
  (at level 100, right associativity) : js_scope.
Open Scope js_scope.

(** [for (const x of xs) body(x)]: the iterations run in order, and the
    first one that throws ends the loop. *)
Fixpoint for_each {S A : Type} (xs : list A) (body : A → M S unit) : M S unit :=
  match xs with
  | [] => ret tt
  | x :: xs' => body x ;; for_each xs' body
  end.

(** ** JavaScript values and the object store *)

Module JS.

(** A reference: the identity of an object. *)
Abbreviation loc := positive.

(** The values a property of a mapping holds in this model: [undefined],
    [null], a boolean, a number, a string, or a reference to a plain object.
    Values of the types Symbol and BigInt, and references to arrays or to
    functions, are not among them. *)
Inductive value : Type :=
| VUndefined
| VNull
| VBoolean (b : bool)
| VNumber (x : float)
| VString (s : string)
| VObject (l : loc).

(** A plain object: its own enumerable properties, in the order in which
    [for ... in] enumerates them. *)
Abbreviation object := (list (string * value)).

(** [o[key]]; a property that is absent reads as [undefined]. *)
Fixpoint get_property (o : object) (key : string) : value :=
  match o with
  | [] => VUndefined
  | (k, v) :: o' => if String.eqb k key then v else get_property o' key
  end.

(** [o[key] = v]: an existing property keeps its place in the enumeration
    order, a new one (whose key is not an array index) is added last. *)
Fixpoint set_property (o : object) (key : string) (v : value) : object :=
  match o with
  | [] => [(key, v)]
  | (k, w) :: o' =>
      if String.eqb k key then (k, v) :: o' else (k, w) :: set_property o' key v
  end.

(** The keys [for (const key in o)] visits. *)
Definition keys (o : object) : list string := o.*1.

(** The part of the language that is not the repository's: the conversion
    of a string to a number (ECMAScript's StringToNumber). *)
Class Ecma : Type := {
  StringToNumber : string → float
}.

(** ECMAScript's ToNumber, applied by unary [-] and by [*] to their
    operands, on the values of this model.  The objects of the store are
    plain records, whose default conversion to a primitive is the string
    [[object Object]], which is not numeric; arrays and objects with a
    [valueOf] or [toString] of their own, which convert otherwise, and the
    values of the types Symbol and BigInt, on which the arithmetic throws,
    are not values of this model. *)
Definition ToNumber {E : Ecma} (v : value) : float :=
  match v with
  | VUndefined => nan
  | VNull => 0
  | VBoolean b => if b then 1 else 0
  | VNumber x => x
  | VString s => StringToNumber s
  | VObject _ => nan
  end%float.

(** The store. *)
Abbreviation heap := (gmap loc object).

(** The properties of the object a reference denotes. *)
Definition properties (h : heap) (l : loc) : object := default [] (h !! l).

(** [l[key]] *)
Definition read (h : heap) (l : loc) (key : string) : value :=
  get_property (properties h l) key.

(** [l[key] = v] *)
Definition write (h : heap) (l : loc) (key : string) (v : value) : heap :=
  alter (λ o, set_property o key v) l h.

(** A new object with the given properties: it gets a reference that
    denotes no object yet. *)
Definition alloc (h : heap) (o : object) : loc * heap :=
  let l := fresh (dom h) in (l, <[l := o]> h).

End JS.

(** ** Numbers *)

(** [signed s x]: [x] is a zero, a finite number or an infinity of sign [s]
    ([true] is negative); in particular [x] is a number. *)
Definition signed (s : bool) (x : spec_float) : Prop :=
  match x with
  | S754_zero s' | S754_infinity s' | S754_finite s' _ _ => s' = s
  | S754_nan => False
  end.

(** ** The panel library, dat.GUI, as [Debug] uses it *)

Module DatGui.
Import JS.

(** A control of a folder: it is bound to a property of an object, which it
    reads and assigns when the user edits it.  [addColor(object, property)]
    makes a colour control; [add(object, property, min, max)] makes a control
    with the range [min] .. [max] (a slider, for a numeric property). *)
Inductive controller : Type :=
| ColorController (object : loc) (property : string)
| RangeController (object : loc) (property : string) (min max : float).

Definition controller_object (c : controller) : loc :=
  match c with
  | ColorController l _ | RangeController l _ _ _ => l
  end.

Definition controller_property (c : controller) : string :=
  match c with
  | ColorController _ k | RangeController _ k _ _ => k
  end.

(** The range of a control, when it has one. *)
Definition controller_range (c : controller) : option (float * float) :=
  match c with
  | ColorController _ _ => None
  | RangeController _ _ lo hi => Some (lo, hi)
  end.

(** A folder: a named group of controls, in the order of their creation. *)
Record folder : Type := Folder {
  folder_name : string;
  controllers : list controller
}.

(** A panel: its folders, in the order of their creation.  [addFolder]
    returns the new folder, which is named here by its position. *)
Abbreviation GUI := (list folder).

(** dat.GUI is a dependency of the repository, not a part of it.  What it
    does with a request is a parameter: the error it raises when it refuses
    a folder or a control, [None] when it accepts.  A refusal may depend on
    the panel and on the object the control is bound to. *)
Class Panel : Type := {
  refuses_folder : GUI → string → option exn;
  refuses_controller : GUI → heap → nat → controller → option exn
}.

(** [raises e]: [e] is an error the panel raises, for some request. *)
Definition raises {P : Panel} (e : exn) : Prop :=
  (∃ gui name, refuses_folder gui name = Some e)
  ∨ (∃ gui h folder c, refuses_controller gui h folder c = Some e).

Definition add_controller (c : controller) (f : folder) : folder :=
  Folder (folder_name f) (controllers f ++ [c]).

(** [gui.addFolder(name)] *)
Definition addFolder {P : Panel} (name : string) : M (heap * GUI) nat :=
  λ '(h, gui),
    match refuses_folder gui name with
    | Some e => (Thrown e, (h, gui))
    | None => (Returned (length gui), (h, gui ++ [Folder name []]))
    end.

Definition register {P : Panel} (folder : nat) (c : controller) : M (heap * GUI) unit :=
  λ '(h, gui),
    match refuses_controller gui h folder c with
    | Some e => (Thrown e, (h, gui))
    | None => (Returned tt, (h, alter (add_controller c) folder gui))
    end.

(** [folder.addColor(object, property)] *)
Definition addColor {P : Panel} (folder : nat) (object : loc) (property : string)
  : M (heap * GUI) unit :=
  register folder (ColorController object property).

(** [folder.add(object, property, min, max)] *)
Definition add {P : Panel} (folder : nat) (object : loc) (property : string)
    (min max : float) : M (heap * GUI) unit :=
  register folder (RangeController object property min max).

(** A panel that accepts every request. *)
Definition permissive : Panel :=
  {| refuses_folder := λ _ _, None;
     refuses_controller := λ _ _ _ _, None |}.

(** A panel with one rule of dat.GUI's [addFolder]: it refuses a folder
    whose name one of its folders already has.  It accepts every other
    request, which dat.GUI does not: dat.GUI also refuses the names its
    folder table inherits (such as [toString]) and some controls.  The
    message is dat.GUI's, without the quotation marks it puts around the
    name. *)
Definition unique_folder_names : Panel :=
  {| refuses_folder := λ gui name,
       if bool_decide (name ∈ folder_name <$> gui)
       then Some (Error ("You already have a folder in this GUI by the name " +:+ name))
       else None;
     refuses_controller := λ _ _ _ _, None |}.

End DatGui.

(** ** lodash's [clone] *)

Module Lodash.
Import JS.

(** [clone(value)] of a plain object: a new object with the same own
    properties, each holding the very value the original holds (a shallow
    copy). *)
Definition clone {G : Type} (l : loc) : M (heap * G) loc :=
  λ '(h, g), let '(c, h') := alloc h (properties h l) in (Returned c, (h', g)).

End Lodash.

(** ** The debug binder: [class Debug] *)

Module Debug.
Import JS.

(** The state [add] works on: the store and [Debug.gui], the one panel of
    the process ([static gui = new dat.GUI()]). *)
Abbreviation state := (heap * DatGui.GUI)%type.

Record t : Type := { multiple : float }.

(** [constructor(multiple = 3)]: the default applies when the argument is
    omitted. *)
Definition constructor (multiple : option float) : t :=
  {| multiple := default 3%float multiple |}.

Section add.
Context {E : Ecma} {P : DatGui.Panel}.

(** The body of the loop of [add], for one key. *)
Definition bind_key (this : t) (folder : nat) (options : loc) (key : string)
  : M state unit :=
  if String.eqb key "color" then
    DatGui.addColor folder options key
  else
    lo <- gets (λ σ, - ToNumber (read σ.1 options key) * multiple this)%float ;;
    hi <- gets (λ σ, ToNumber (read σ.1 options key) * multiple this)%float ;;
    DatGui.add folder options key lo hi.

(** [add(name, options)], for [options] a mapping: a reference to a plain
    object. *)
Definition add (this : t) (name : string) (options : loc) : M state loc :=
  options <- Lodash.clone options ;;
  folder <- DatGui.addFolder name ;;
  keys <- gets (λ σ, keys (properties σ.1 options)) ;;
  for_each keys (bind_key this folder options) ;;
  ret options.

(** The control the loop of [add] asks the panel for, for the key [key] of
    the clone [c], whose properties are [o]. *)
Definition control_for (this : t) (c : loc) (o : object) (key : string)
  : DatGui.controller :=
  if String.eqb key "color" then
    DatGui.ColorController c key
  else
    DatGui.RangeController c key
      (- ToNumber (get_property o key) * multiple this)
      (ToNumber (get_property o key) * multiple this).

End add.

End Debug.

(** ** The page: elements and their children *)

Module Dom.

Abbreviation node := positive.

(** An element: what [toString()] returns for it, and its child nodes. *)
Record element : Type := Element {
  toString : string;
  childNodes : list node
}.

Abbreviation document := (gmap node element).

(** [el.toString()] *)
Definition el_toString (d : document) (el : node) : string :=
  default "" (toString <$> d !! el).

(** [parent.appendChild(child)] *)
Definition appendChild (parent child : node) (d : document) : document :=
  alter (λ e, Element (toString e) (childNodes e ++ [child])) parent d.

End Dom.

(** ** The scene composer: [class Lego] *)

Module Lego.
Import Dom.

(** [LightType], of [./Light]: the two members [Lego] uses. *)
Inductive LightType : Type := Ambient | Directional.

(** Modelled from the spec: the factories of [./Scene], [./Camera],
    [./Light], [./Renderer] and [./Control], which are not among the sources
    at hand.  The specification describes them as direct delegation to the
    constructors of the rendering engine, with no error path of their own:
    each one is taken as a function that builds its object and may change the
    page (a renderer mounts its canvas), and does not throw.  The types of the
    engine's objects, of the option records and of the debug callbacks are
    parameters as well. *)
Class Engine : Type := {
  tScene : Type;
  tCamera : Type;
  tLight : Type;
  Renderer : Type;
  MapControls : Type;
  Mesh : Type;
  Function : Type;
  SceneOptions : Type;
  CameraOptions : Type;
  LightOptions : Type;
  crtScene : option SceneOptions → document → tScene * document;
  crtCamera : option CameraOptions → node → document → tCamera * document;
  crtLight : LightType → option LightOptions → document → tLight * document;
  getRenderer : node → document → Renderer * document;
  getControl : tCamera → node → document → MapControls * document
}.

(** [WEBGL], of [../utils/WebGl.js]: whether the environment supports WebGL,
    and the element that says it does not. *)
Record WebGL : Type := {
  isWebGLAvailable : bool;
  getWebGLErrorMessage : node
}.

Section Lego.
Context {engine : Engine} (WEBGL : WebGL).

(** [interface LegoOptions] *)
Record LegoOptions : Type := {
  options_el : option node;
  options_camera : option CameraOptions;
  options_scene : option SceneOptions;
  options_ambient : option LightOptions;
  options_directional : option LightOptions
}.

Record t : Type := {
  el : node;
  scene : tScene;
  camera : tCamera;
  renderer : Renderer;
  control : MapControls;
  ground : option Mesh;
  ambientLight : tLight;
  directionalLight : tLight;
  debugList : list Function
}.

(** The two errors of the constructor. *)
Definition mount_error : exn := Error "请传入需要被挂载的document节点元素".
Definition webgl_error : exn := Error "此浏览器不支持webgl".

(** A factory call, as a computation on the page. *)
Definition call {A : Type} (f : document → A * document) : M document A :=
  λ d, let '(a, d') := f d in (Returned a, d').

Definition initScene (options : option SceneOptions) : M document tScene :=
  call (crtScene options).

Definition initCamera (options : option CameraOptions) (el : node)
  : M document tCamera :=
  call (crtCamera options el).

Definition initRenderer (el : node) : M document Renderer :=
  call (getRenderer el).

Definition initControl (camera : tCamera) (el : node) : M document MapControls :=
  call (getControl camera el).

(** The lights are made by [lf = new Light(this)], which is part of
    [crtLight] here. *)
Definition initAmbientLight (options : option LightOptions) : M document tLight :=
  call (crtLight Ambient options).

Definition initDirectionalLight (options : option LightOptions)
  : M document tLight :=
  call (crtLight Directional options).

(** [compatibilityCheck(el)] *)
Definition compatibilityCheck (el : node) : M document bool :=
  if isWebGLAvailable WEBGL then
    ret true
  else
    modify (appendChild el (getWebGLErrorMessage WEBGL)) ;;
    ret false.

(** [constructor({ el, camera, scene, ambient, directional })] *)
Definition constructor (options : LegoOptions) : M document t :=
  match options_el options with
  | None => throw mount_error
  | Some el =>
      s <- gets (λ d, el_toString d el) ;;
      if negb (String.eqb s "[object HTMLDivElement]") then throw mount_error
      else
        supported <- compatibilityCheck el ;;
        if negb supported then throw webgl_error
        else
          scene <- initScene (options_scene options) ;;
          camera <- initCamera (options_camera options) el ;;
          ambientLight <- initAmbientLight (options_ambient options) ;;
          directionalLight <- initDirectionalLight (options_directional options) ;;
          renderer <- initRenderer el ;;
          control <- initControl camera el ;;
          (* [console.log(this.control)] only writes to the console *)
          ret {| el := el; scene := scene; camera := camera;
                 renderer := renderer; control := control; ground := None;
                 ambientLight := ambientLight;
                 directionalLight := directionalLight; debugList := [] |}
  end.

(** *** The animation loop *)

(** The functions handed to [requestAnimationFrame]. *)
Inductive frame_callback : Type :=
| Animate.  (* [this.animate] *)

(** The calls [animate] makes to the debug callbacks, to the engine and to
    the platform. *)
Inductive event : Type :=
| Call (f : Function)                                     (* [f()] *)
| ControlUpdate (c : MapControls)                         (* [c.update()] *)
| RendererRender (r : Renderer) (s : tScene) (c : tCamera) (* [r.render(s, c)] *)
| RequestAnimationFrame (cb : frame_callback).

(** The world [animate] runs in: the composer, the calls made so far, and
    the callbacks the platform will run at the next frame. *)
Record world : Type := World {
  this : t;
  trace : list event;
  scheduled : list frame_callback
}.

Definition emit (e : event) : M world unit :=
  modify (λ w, World (this w) (trace w ++ [e]) (scheduled w)).

(** [requestAnimationFrame(cb)] *)
Definition requestAnimationFrame (cb : frame_callback) : M world unit :=
  emit (RequestAnimationFrame cb) ;;
  modify (λ w, World (this w) (trace w) (scheduled w ++ [cb])).

(** [animate = () => { ... }] *)
Definition animate : M world unit :=
  fs <- gets (λ w, debugList (this w)) ;;
  for_each fs (λ f, emit (Call f)) ;;
  c <- gets (λ w, control (this w)) ;;
  emit (ControlUpdate c) ;;
  r <- gets (λ w, renderer (this w)) ;;
  s <- gets (λ w, scene (this w)) ;;
  cam <- gets (λ w, camera (this w)) ;;
  emit (RendererRender r s cam) ;;
  requestAnimationFrame Animate.

Definition run_callback (cb : frame_callback) : M world unit :=
  match cb with
  | Animate => animate
  end.

(** One frame of the platform: the callbacks scheduled for it run, in the
    order of their scheduling; what they schedule is for the next frame. *)
Definition frame : M world unit :=
  cbs <- gets scheduled ;;
  modify (λ w, World (this w) (trace w) []) ;;
  for_each cbs run_callback.

(** [n] frames in a row. *)
Fixpoint frames (n : nat) : M world unit :=
  match n with
  | O => ret tt
  | S n' => frame ;; frames n'
  end.

(** What one run of [animate] adds to the trace. *)
Definition tick (this : t) : list event :=
  (Call <$> debugList this)
  ++ [ControlUpdate (control this);
      RendererRender (renderer this) (scene this) (camera this);
      RequestAnimationFrame Animate].

End Lego.

End Lego.

(** ** Sample data *)

Module Sample.
Import JS.

(** A converter for stores that hold no string: it stands in for
    StringToNumber where no string is converted. *)
Definition no_strings : Ecma := {| StringToNumber := λ _, nan |}.

(** [{ r: 1, g: 1, b: 1 }] at reference 1, and
    [{ intensity: 2, color: <reference 1> }] at reference 2. *)
Definition light_heap : heap :=
  {[ 1%positive := [("r", VNumber 1); ("g", VNumber 1); ("b", VNumber 1)];
     2%positive := [("intensity", VNumber 2); ("color", VObject 1%positive)] ]}.

(** [{ x: -2, y: 5 }] at reference 1. *)
Definition position_heap : heap :=
  {[ 1%positive := [("x", VNumber (-2)); ("y", VNumber 5)] ]}.

(** An engine whose objects are named by strings and whose debug callbacks
    are numbered; the renderer mounts its canvas, node 9, in the element. *)
Definition engine : Lego.Engine :=
  {| Lego.tScene := string;
     Lego.tCamera := string;
     Lego.tLight := string;
     Lego.Renderer := string;
     Lego.MapControls := string;
     Lego.Mesh := string;
     Lego.Function := nat;
     Lego.SceneOptions := unit;
     Lego.CameraOptions := unit;
     Lego.LightOptions := unit;
     Lego.crtScene := λ _ d, ("scene", d);
     Lego.crtCamera := λ _ _ d, ("camera", d);
     Lego.crtLight := λ ty _ d,
       (match ty with Lego.Ambient => "ambient" | Lego.Directional => "directional" end, d);
     Lego.getRenderer := λ el d, ("renderer", Dom.appendChild el 9%positive d);
     Lego.getControl := λ _ _ d, ("control", d) |}.

(** A page with a [div] (node 1) that has one child, and a [span] (node 2). *)
Definition page : Dom.document :=
  {[ 1%positive := Dom.Element "[object HTMLDivElement]" [5%positive];
     2%positive := Dom.Element "[object HTMLSpanElement]" [] ]}.


Definition without_webgl : Lego.WebGL :=
  {| Lego.isWebGLAvailable := false; Lego.getWebGLErrorMessage := 7%positive |}.

Definition mount (el : option Dom.node) : Lego.LegoOptions (engine := engine) :=
  {| Lego.options_el := el;
     Lego.options_camera := None;
     Lego.options_scene := None;
     Lego.options_ambient := None;
     Lego.options_directional := None |}.

(** A composer with two debug callbacks. *)
Definition lego : Lego.t (engine := engine) :=
  @Lego.Build_t engine 1%positive "scene" "camera" "renderer" "control" None
    "ambient" "directional" [10; 11].

End Sample.

(** ** The other methods of [Lego]: [initHelper], [createGround], [render]
    and [debug] *)

Module Composer.
Import JS Dom Lego.

(** ECMAScript's ToBoolean, which [&&] applies to its left operand: of the
    numbers, the two zeros and [nan] are false. *)
Definition ToBoolean (v : value) : bool :=
  match v with
  | VUndefined | VNull => false
  | VBoolean b => b
  | VNumber x => negb (PrimFloat.eqb x 0) && PrimFloat.eqb x x
  | VString s => negb (String.eqb s "")
  | VObject _ => true
  end.

(** [interface HelperOptions], of [../config/lego]: the two members
    [initHelper] reads, each any value. *)
Record HelperOptions : Type := {
  grid : value;
  stats : value
}.

(** The outline of a [Shape]: the calls of [moveTo] and [lineTo], in order. *)
Inductive path_command : Type :=
| MoveTo (x y : float)
| LineTo (x y : float).

(** The settings handed to [ExtrudeGeometry]. *)
Record ExtrudeSettings : Type := {
  steps : float;
  depth : float;
  bevelEnabled : bool;
  bevelThickness : float;
  bevelSize : float;
  bevelOffset : float;
  bevelSegments : float
}.

(** The code these methods use that is not among the sources at hand:
    [Model.group] of [./Model]; the shared defaults [renderOptions] of
    [../config/lego], with lodash's [merge], which changes its first argument
    and returns it, and the member [helper] of the merged options; the
    callback [helper.addStats(stats)] of [../utils/Helper] returns; the
    element [dom] of a [Stats] panel; and the mesh three.js builds from an
    outline, extrusion settings and a colour.  An object made by [new] is
    named by a number, the count of the objects made before it. *)
Class Toolkit {engine : Engine} : Type := {
  Group : Type;
  Model_group : Group;
  RenderOptions : Type;
  merge : RenderOptions → option RenderOptions → RenderOptions;
  helper : RenderOptions → HelperOptions;
  addStats : nat → float → Function;
  stats_dom : nat → node;
  newMesh : nat → list path_command → ExtrudeSettings → string → Mesh
}.

Section Composer.
Context {engine : Engine} {toolkit : Toolkit}.

(** The functions handed to [requestAnimationFrame]: [this.animate], and
    the closure [animate] of a call of [debug], with the objects it
    captured. *)
Inductive callback : Type :=
| LoopAnimate
| DebugAnimate (renderer : Renderer) (scene : tScene) (camera : tCamera)
    (control : MapControls) (stats : nat).

(** What [scene.add] is given. *)
Inductive object3d : Type :=
| OfGroup (g : Group)
| OfLight (l : tLight)
| OfMesh (m : Mesh).

(** The calls these methods make to the engine, to the helpers and to the
    platform; [Loop] holds the calls [animate] makes. *)
Inductive call : Type :=
| Loop (e : event)
| SceneAdd (s : tScene) (x : object3d)             (* [s.add(x)] *)
| NewHelper (helper : nat) (s : tScene) (el : node) (* [new Helper(s, el)] *)
| AddGrid (helper : nat) (grid : value)            (* [helper.addGrid(grid)] *)
| AddStats (helper : nat) (stats : float)          (* [helper.addStats(stats)] *)
| AddClickHandle (c : tCamera) (s : tScene)
    (* [new Interaction(c, s).addClickHandle(...)] *)
| ShowPanel (stats : nat) (panel : float)          (* [stats.showPanel(panel)] *)
| StatsUpdate (stats : nat)                        (* [stats.update()] *)
| RequestFrame (cb : callback).  (* [requestAnimationFrame(cb)], in [debug] *)

(** The world of these methods: the composer, the page, the shared
    defaults, the number of objects made, the calls made so far and the
    callbacks the platform will run at the next frame. *)
Record world : Type := World {
  this : Lego.t;
  page : document;
  renderOptions : RenderOptions;
  created : nat;
  trace : list call;
  scheduled : list callback
}.

Definition emit (c : call) : M world unit :=
  modify (λ w, World (this w) (page w) (renderOptions w) (created w)
                 (trace w ++ [c]) (scheduled w)).

(** [new C(...)]: the number that names the new object. *)
Definition new : M world nat :=
  λ w, (Returned (created w),
        World (this w) (page w) (renderOptions w) (S (created w))
          (trace w) (scheduled w)).

(** [this.debugList.push(f)] *)
Definition push (f : Function) : M world unit :=
  modify (λ w,
    World (Build_t (el (this w)) (scene (this w)) (camera (this w))
             (renderer (this w)) (control (this w)) (ground (this w))
             (ambientLight (this w)) (directionalLight (this w))
             (debugList (this w) ++ [f]))
      (page w) (renderOptions w) (created w) (trace w) (scheduled w)).

(** [this.ground = mesh] *)
Definition set_ground (mesh : Mesh) : M world unit :=
  modify (λ w,
    World (Build_t (el (this w)) (scene (this w)) (camera (this w))
             (renderer (this w)) (control (this w)) (Some mesh)
             (ambientLight (this w)) (directionalLight (this w))
             (debugList (this w)))
      (page w) (renderOptions w) (created w) (trace w) (scheduled w)).

Definition of_frame_callback (cb : frame_callback) : callback :=
  match cb with
  | Animate => LoopAnimate
  end.

(** [this.animate()]: the run of [Lego.animate], its calls added to the
    trace and its request to the schedule. *)
Definition animate : M world unit :=
  λ w, let '(r, lw) := Lego.animate (Lego.World (this w) [] []) in
       (r, World (Lego.this lw) (page w) (renderOptions w) (created w)
             (trace w ++ (Loop <$> Lego.trace lw))
             (scheduled w ++ (of_frame_callback <$> Lego.scheduled lw))).

(** [initHelper(helperOptions, scene, el)] *)
Definition initHelper (helperOptions : HelperOptions) (scene : tScene)
    (el : node) : M world unit :=
  helper <- new ;;
  emit (NewHelper helper scene el) ;;
  (if ToBoolean (grid helperOptions)
   then emit (AddGrid helper (grid helperOptions))
   else ret tt) ;;
  match stats helperOptions with
  | VNumber stats =>                       (* [typeof stats === "number"] *)
      emit (AddStats helper stats) ;;
      push (addStats helper stats)
  | _ => ret tt
  end.

(** [createGround()] *)
Definition createGround : M world unit :=
  let groundShape :=
    [MoveTo (-250) (-200); LineTo (-250) 200; LineTo 250 200;
     LineTo 250 (-200)]%float in
  let extrudeSettings :=
    {| steps := 2; depth := 10; bevelEnabled := true; bevelThickness := 0;
       bevelSize := 0; bevelOffset := 0; bevelSegments := 1 |}%float in
  mesh <- new ;;
  set_ground (newMesh mesh groundShape extrudeSettings "#efefef") ;;
  s <- gets (λ w, scene (this w)) ;;
  g <- gets (λ w, ground (this w)) ;;
  match g with
  | Some m => emit (SceneAdd s (OfMesh m))   (* [this.scene.add(this.ground)] *)
  | None => ret tt
  end.

(** [render(options)] *)
Definition render (options : option RenderOptions) : M world unit :=
  s <- gets (λ w, scene (this w)) ;;
  emit (SceneAdd s (OfGroup Model_group)) ;;
  ambient <- gets (λ w, ambientLight (this w)) ;;
  emit (SceneAdd s (OfLight ambient)) ;;
  directional <- gets (λ w, directionalLight (this w)) ;;
  emit (SceneAdd s (OfLight directional)) ;;
  modify (λ w, World (this w) (page w) (merge (renderOptions w) options)
                 (created w) (trace w) (scheduled w)) ;;
  merged <- gets renderOptions ;;
  mount <- gets (λ w, el (this w)) ;;
  initHelper (helper merged) s mount ;;
  cam <- gets (λ w, camera (this w)) ;;
  emit (AddClickHandle cam s) ;;
  animate.

(** The closure [animate] of [debug]: one run. *)
Definition debug_animate (r : Renderer) (s : tScene) (cam : tCamera)
    (c : MapControls) (stats : nat) : M world unit :=
  emit (Loop (RendererRender r s cam)) ;;
  emit (Loop (ControlUpdate c)) ;;
  emit (StatsUpdate stats) ;;
  emit (RequestFrame (DebugAnimate r s cam c stats)) ;;
  modify (λ w, World (this w) (page w) (renderOptions w) (created w) (trace w)
                 (scheduled w ++ [DebugAnimate r s cam c stats])).

(** [debug()] *)
Definition debug : M world unit :=
  c <- gets (λ w, control (this w)) ;;
  s <- gets (λ w, scene (this w)) ;;
  r <- gets (λ w, renderer (this w)) ;;
  cam <- gets (λ w, camera (this w)) ;;
  stats <- new ;;
  emit (ShowPanel stats 0) ;;
  mount <- gets (λ w, el (this w)) ;;
  modify (λ w, World (this w) (appendChild mount (stats_dom stats) (page w))
                 (renderOptions w) (created w) (trace w) (scheduled w)) ;;
  debug_animate r s cam c stats.

Definition run_callback (cb : callback) : M world unit :=
  match cb with
  | LoopAnimate => animate
  | DebugAnimate r s cam c stats => debug_animate r s cam c stats
  end.

(** One frame of the platform: the callbacks scheduled for it run, in the
    order of their scheduling; what they schedule is for the next frame. *)
Definition frame : M world unit :=
  cbs <- gets scheduled ;;
  modify (λ w, World (this w) (page w) (renderOptions w) (created w)
                 (trace w) []) ;;
  for_each cbs run_callback.

Fixpoint frames (n : nat) : M world unit :=
  match n with
  | O => ret tt
  | S n' => frame ;; frames n'
  end.

(** What the application does with a composer: it calls a method, or the
    platform runs a frame. *)
Inductive step : Type :=
| Render (options : option RenderOptions)
| CreateGround
| Debug
| NextFrame.

Definition do_step (s : step) : M world unit :=
  match s with
  | Render options => render options
  | CreateGround => createGround
  | Debug => debug
  | NextFrame => frame
  end.

(** The calls that start a loop. *)
Definition starts_loop (s : step) : bool :=
  match s with
  | Render _ | Debug => true
  | CreateGround | NextFrame => false
  end.

Definition is_render (c : call) : bool :=
  match c with
  | Loop (RendererRender _ _ _) => true
  | _ => false
  end.

Definition is_ground (c : call) : bool :=
  match c with
  | SceneAdd _ (OfMesh _) => true
  | _ => false
  end.

Definition makes_ground (s : step) : bool :=
  match s with
  | CreateGround => true
  | _ => false
  end.

(** The number of calls of [renderer.render] in a trace. *)
Definition renders (tr : list call) : nat := length (filter is_render tr).

(** What one run of a scheduled callback adds to the trace. *)
Definition callback_calls (lego : Lego.t) (cb : callback) : list call :=
  match cb with
  | LoopAnimate => Loop <$> tick lego
  | DebugAnimate r s cam c stats =>
      [Loop (RendererRender r s cam); Loop (ControlUpdate c);
       StatsUpdate stats; RequestFrame cb]
  end.

(** The callbacks the helper numbered [k] registers for the options [o], and
    the calls made to it. *)
Definition helper_callbacks (k : nat) (o : HelperOptions) : list Function :=
  match stats o with
  | VNumber x => [addStats k x]
  | _ => []
  end.

Definition helper_calls (k : nat) (o : HelperOptions) (s : tScene) (el : node)
  : list call :=
  NewHelper k s el
  :: (if ToBoolean (grid o) then [AddGrid k (grid o)] else [])
  ++ match stats o with
     | VNumber x => [AddStats k x]
     | _ => []
     end.

(** A composer with more debug callbacks, and with another ground. *)
Definition extend (fs : list Function) (lego : Lego.t) : Lego.t :=
  Build_t (el lego) (scene lego) (camera lego) (renderer lego) (control lego)
    (ground lego) (ambientLight lego) (directionalLight lego)
    (debugList lego ++ fs).

Definition with_ground (mesh : Mesh) (lego : Lego.t) : Lego.t :=
  Build_t (el lego) (scene lego) (camera lego) (renderer lego) (control lego)
    (Some mesh) (ambientLight lego) (directionalLight lego) (debugList lego).

(** The mesh [createGround] builds, as the object numbered [k]. *)
Definition ground_mesh (k : nat) : Mesh :=
  newMesh k
    [MoveTo (-250) (-200); LineTo (-250) 200; LineTo 250 200;
     LineTo 250 (-200)]%float
    {| steps := 2; depth := 10; bevelEnabled := true; bevelThickness := 0;
       bevelSize := 0; bevelOffset := 0; bevelSegments := 1 |}%float
    "#efefef".

(** Two composers made of the same engine objects: they may differ by the
    ground and by the debug callbacks. *)
Definition same_engine (lego lego' : Lego.t) : Prop :=
  el lego' = el lego ∧ scene lego' = scene lego ∧ camera lego' = camera lego
  ∧ renderer lego' = renderer lego ∧ control lego' = control lego
  ∧ ambientLight lego' = ambientLight lego
  ∧ directionalLight lego' = directionalLight lego.

End Composer.

End Composer.

(** ** More sample data *)

Module Cases.
Import JS.

(** A panel that, as dat.GUI's [add] and [addColor] do, refuses a control
    for a property that holds [undefined], and accepts every other request. *)
Definition defined_properties : DatGui.Panel :=
  {| DatGui.refuses_folder := λ _ _, None;
     DatGui.refuses_controller := λ _ h _ ctl,
       match read h (DatGui.controller_object ctl)
               (DatGui.controller_property ctl) with
       | VUndefined =>
           Some (Error ("Object has no property "
                        +:+ DatGui.controller_property ctl))
       | _ => None
       end |}.

(** [{ a: 1, b: undefined, c: 2 }] at reference 1. *)
Definition gap_heap : heap :=
  {[ 1%positive := [("a", VNumber 1); ("b", VUndefined); ("c", VNumber 2)] ]}.

(** [{ offset: 0, position: <reference 1> }] at reference 2, and
    [{ x: 1 }] at reference 1. *)
Definition zero_heap : heap :=
  {[ 1%positive := [("x", VNumber 1)];
     2%positive := [("offset", VNumber 0); ("position", VObject 1%positive)] ]}.

(** Helpers for the engine of the samples: the options are the helper
    options themselves, given options replace the defaults, the callback of
    the helper numbered [k] is the function [100 + k], and the panel numbered
    [k] has the element [20 + k]. *)
Definition toolkit : Composer.Toolkit (engine := Sample.engine) :=
  @Composer.Build_Toolkit Sample.engine
    string "group"
    Composer.HelperOptions
    (λ defaults options, default defaults options)
    (λ options, options)
    (λ k _, 100 + k)
    (λ k, Pos.of_nat (20 + k))
    (λ _ _ _ _, "ground").

(** The composer of the samples, before any call: nothing is scheduled, and
    by default there is no grid and no stats panel. *)
Definition world : Composer.world (engine := Sample.engine) (toolkit := toolkit) :=
  @Composer.World Sample.engine toolkit Sample.lego Sample.page
    (Composer.Build_HelperOptions VUndefined VUndefined) 0 [] [].

(** Helper options that ask for the first stats panel, and for a grid of
    zero, and the options of [render] that hold them. *)
Definition with_stats : Composer.HelperOptions :=
  Composer.Build_HelperOptions (VNumber 0) (VNumber 0).

Definition stats_options : option (@Composer.RenderOptions Sample.engine toolkit) :=
  Some with_stats.

(** A session of the application: calls of [add], one after the other,
    each by a binder, for a name and a mapping; the clones are dropped. *)
Definition add_all {E : Ecma} {P : DatGui.Panel}
    (calls : list (Debug.t * string * loc)) : M Debug.state unit :=
  for_each calls (λ call, Debug.add call.1.1 call.1.2 call.2 ;; ret tt).




End Cases.

(** * Properties *)

(** ** Numbers: negation, multiplication and order of binary64 values *)

Section Number.
Open Scope float_scope.

Lemma round_aux_opp s m e l :
  binary_round_aux prec emax (negb s) m e l
  = SFopp (binary_round_aux prec emax s m e l).
Proof.
  unfold binary_round_aux.
  destruct (shr_fexp prec emax m e l) as [mrs' e'].
  destruct (shr_fexp prec emax _ e' loc_Exact) as [mrs'' e''].
  destruct (shr_m mrs''); [reflexivity| |reflexivity].
  destruct (Z.leb e'' _); reflexivity.
Qed.

Lemma SFmul_opp_l x y :
  SFmul prec emax (SFopp x) y = SFopp (SFmul prec emax x y).
Proof.
  destruct x as [sx|sx| |sx mx ex], y as [sy|sy| |sy my ey]; simpl;
    try reflexivity; try (destruct sx, sy; reflexivity).
  rewrite <- round_aux_opp. destruct sx, sy; reflexivity.
Qed.

(** [-x * y], as JavaScript parses it, is the opposite of [x * y]: rounding
    is symmetric. *)
Lemma opp_mul_l (x y : float) : - x * y = - (x * y).
Proof.
  apply Prim2SF_inj.
  rewrite mul_spec, !opp_spec, mul_spec. apply SFmul_opp_l.
Qed.

Lemma shr_1_nonneg mrs : (0 <= shr_m mrs)%Z → (0 <= shr_m (shr_1 mrs))%Z.
Proof.
  destruct mrs as [m r s]; simpl.
  destruct m as [|[p|p|]|p]; simpl; lia.
Qed.

Lemma iter_shr_1_nonneg p : ∀ mrs,
  (0 <= shr_m mrs)%Z → (0 <= shr_m (SpecFloat.iter_pos shr_1 p mrs))%Z.
Proof.
  induction p as [p IH|p IH|]; intros mrs Hm; simpl.
  - apply IH, IH, shr_1_nonneg, Hm.
  - apply IH, IH, Hm.
  - apply shr_1_nonneg, Hm.
Qed.

Lemma shr_fexp_nonneg m e l :
  (0 <= m)%Z → (0 <= shr_m (shr_fexp prec emax m e l).1)%Z.
Proof.
  intros Hm. unfold shr_fexp, shr.
  assert (H0 : (0 <= shr_m (shr_record_of_loc m l))%Z)
    by (destruct l as [|[]]; exact Hm).
  destruct (_ - e)%Z; simpl; auto using iter_shr_1_nonneg.
Qed.

Lemma round_nearest_even_nonneg m l :
  (0 <= m)%Z → (0 <= round_nearest_even m l)%Z.
Proof.
  intros Hm. destruct l as [|[]]; simpl; try lia.
  destruct (Z.even m); lia.
Qed.

(** Rounding a mantissa that is not negative gives a number of the sign
    asked for. *)
Lemma round_aux_signed s m e l :
  (0 <= m)%Z → signed s (binary_round_aux prec emax s m e l).
Proof.
  intros Hm. unfold binary_round_aux.
  pose proof (shr_fexp_nonneg m e l Hm) as H1.
  destruct (shr_fexp prec emax m e l) as [mrs' e']. simpl in H1.
  pose proof (shr_fexp_nonneg _ e' loc_Exact
                (round_nearest_even_nonneg _ (loc_of_shr_record mrs') H1)) as H2.
  destruct (shr_fexp prec emax _ e' loc_Exact) as [mrs'' e'']. simpl in H2.
  destruct (shr_m mrs''); [reflexivity| |lia].
  destruct (Z.leb e'' _); reflexivity.
Qed.






(** The product of two positive numbers is a positive number, possibly the
    positive zero or the positive infinity. *)
Lemma mul_pos_pos_signed (x y : float) :
  (0 <? x) = true → (0 <? y) = true → signed false (Prim2SF (x * y)).
Proof.
  rewrite !ltb_spec, mul_spec.
  change (Prim2SF 0) with (S754_zero false).
  destruct (Prim2SF x) as [sx|sx| |sx mx ex], (Prim2SF y) as [sy|sy| |sy my ey];
    try discriminate; try (destruct sx, sy; discriminate || reflexivity).
  destruct sx, sy; try discriminate. intros _ _.
  apply round_aux_signed. lia.
Qed.

Lemma signed_opp_leb (x : float) :
  signed false (Prim2SF x) → (- x <=? x) = true.
Proof.
  rewrite leb_spec, opp_spec.
  destruct (Prim2SF x) as [s|s| |s m e]; simpl; try contradiction;
    intros ->; reflexivity.
Qed.

Lemma mul_pos_pos_le (x y : float) :
  (0 <? x) = true → (0 <? y) = true → (- x * y <=? x * y) = true.
Proof.
  intros Hx Hy. rewrite opp_mul_l.
  apply signed_opp_leb, mul_pos_pos_signed; assumption.
Qed.

End Number.

(** ** The store *)

Section store.
Import JS.
Implicit Types (h : heap) (o : object) (l c : loc).

Lemma alloc_fresh h o : h !! (alloc h o).1 = None.
Proof. apply not_elem_of_dom, is_fresh. Qed.

Lemma fresh_ne h l : is_Some (h !! l) → fresh (dom h) ≠ l.
Proof.
  intros Hl <-. pose proof (alloc_fresh h []) as Hf. simpl in Hf.
  rewrite Hf in Hl. by destruct Hl.
Qed.

Lemma write_other h l l' key v : l ≠ l' → write h l key v !! l' = h !! l'.
Proof. intros Hne. by apply lookup_alter_ne. Qed.

Lemma write_same h l key v :
  write h l key v !! l = (λ o, set_property o key v) <$> h !! l.
Proof. apply lookup_alter_eq. Qed.

Lemma get_set_property_eq o key v : get_property (set_property o key v) key = v.
Proof.
  induction o as [|[k w] o IH]; simpl.
  - by rewrite String.eqb_refl.
  - destruct (String.eqb k key) eqn:Ek; simpl; by rewrite Ek.
Qed.

Lemma read_lookup h l o key : h !! l = Some o → read h l key = get_property o key.
Proof. intros Hl. unfold read, properties. by rewrite Hl. Qed.

(** Reading a property that was just written gives the value written. *)
Lemma read_write_eq h l key v :
  is_Some (h !! l) → read (write h l key v) l key = v.
Proof.
  intros [o Ho]. unfold read, properties.
  rewrite write_same, Ho. simpl. apply get_set_property_eq.
Qed.

(** A write to an object leaves every other object as it is. *)
Lemma read_write_other h l l' key key' v :
  l ≠ l' → read (write h l key v) l' key' = read h l' key'.
Proof. intros Hne. unfold read, properties. by rewrite write_other. Qed.

End store.

(** ** The loop of [add] *)

Section debug_add.
Import JS DatGui.
Context {E : Ecma} {P : Panel}.
Implicit Types (h : heap) (gui : GUI) (o : object) (c l : loc).
Implicit Types (this : Debug.t) (name key : string) (cs : list controller).

(** One iteration asks the panel for the control [control_for] describes. *)
Lemma bind_key_register this f c key h gui o :
  h !! c = Some o →
  Debug.bind_key this f c key (h, gui)
  = register f (Debug.control_for this c o key) (h, gui).
Proof.
  intros Hc. unfold Debug.bind_key, Debug.control_for.
  destruct (String.eqb key "color"); [reflexivity|].
  unfold bind, gets, DatGui.add. simpl.
  by rewrite (read_lookup _ _ _ _ Hc).
Qed.

(** A control asked for in the folder created last is added to it, unless
    the panel refuses. *)
Lemma register_last ctl name cs g0 h :
  register (length g0) ctl (h, g0 ++ [Folder name cs])
  = match refuses_controller (g0 ++ [Folder name cs]) h (length g0) ctl with
    | Some e => (Thrown e, (h, g0 ++ [Folder name cs]))
    | None => (Returned tt, (h, g0 ++ [Folder name (cs ++ [ctl])]))
    end.
Proof.
  unfold register.
  destruct (refuses_controller _ _ _ _); [reflexivity|].
  replace (length g0) with (length g0 + 0) at 1 by lia.
  by rewrite alter_app_r.
Qed.

Lemma for_each_bind_key this c o name h g0 keys :
  h !! c = Some o → ∀ cs,
  match for_each keys (Debug.bind_key this (length g0) c)
          (h, g0 ++ [Folder name cs]) with
  | (Returned _, σ) =>
      σ = (h, g0 ++ [Folder name (cs ++ (Debug.control_for this c o <$> keys))])
  | (Thrown e, σ) =>
      σ.1 = h
      ∧ ∃ gui' ctl, refuses_controller gui' h (length g0) ctl = Some e
  end.
Proof.
  intros Hc. induction keys as [|key keys IH]; intros cs; simpl.
  - by rewrite app_nil_r.
  - unfold bind. rewrite (bind_key_register _ _ _ _ _ _ _ Hc), register_last.
    destruct (refuses_controller _ _ _ _) as [e|] eqn:Hr.
    + split; [reflexivity|]. eauto.
    + specialize (IH (cs ++ [Debug.control_for this c o key])).
      by rewrite <- app_assoc in IH.
Qed.

(** What a call of [add] does: it returns the reference of a new object
    holding the properties of [options], and leaves one more folder in the
    panel, with one control for each key; or it throws the error with which
    the panel refused the folder or one of the controls, the clone being
    allocated all the same. *)
Lemma add_run this name options h gui :
  let o := properties h options in
  let c := fresh (dom h) in
  match Debug.add this name options (h, gui) with
  | (Returned c', σ) =>
      refuses_folder gui name = None
      ∧ c' = c
      ∧ σ = (<[c := o]> h,
             gui ++ [Folder name (Debug.control_for this c o <$> keys o)])
  | (Thrown e, σ) =>
      σ.1 = <[c := o]> h
      ∧ (refuses_folder gui name = Some e
         ∨ ∃ gui' ctl,
             refuses_controller gui' (<[c := o]> h) (length gui) ctl = Some e)
  end.
Proof.
  intros o c. unfold Debug.add, bind, Lodash.clone, alloc, addFolder. simpl.
  fold c o.
  destruct (refuses_folder gui name) as [e|] eqn:Hf.
  { split; [reflexivity|]. by left. }
  unfold gets, ret. simpl.
  assert (Hc : <[c := o]> h !! c = Some o) by apply lookup_insert_eq.
  unfold properties at 1. rewrite Hc. simpl.
  pose proof (for_each_bind_key this c o name _ gui (keys o) Hc []) as Hloop.
  destruct (for_each _ _ _) as [[[]|e] σ]; simpl in *.
  - by subst σ.
  - destruct Hloop as [-> ?]. split; [reflexivity|]. by right.
Qed.

Lemma add_outcome this name options h gui :
  let o := properties h options in
  let c := fresh (dom h) in
  match Debug.add this name options (h, gui) with
  | (Returned c', σ) =>
      c' = c
      ∧ σ = (<[c := o]> h,
             gui ++ [Folder name (Debug.control_for this c o <$> keys o)])
  | (Thrown e, σ) => raises e ∧ σ.1 = <[c := o]> h
  end.
Proof.
  intros o c. pose proof (add_run this name options h gui) as Hrun.
  simpl in Hrun. fold o c in Hrun.
  destruct (Debug.add this name options (h, gui)) as [[c'|e] σ].
  - apply Hrun.
  - destruct Hrun as [-> [Hf|(gui' & ctl & Hr)]]; (split; [|reflexivity]).
    + left. eauto.
    + right. eauto.
Qed.

End debug_add.

(** ** Consequences for a call of [add] *)

Section debug_add_facts.
Import JS DatGui.
Context {E : Ecma} {P : Panel}.
Implicit Types (h : heap) (gui : GUI) (o : object) (c l : loc).
Implicit Types (this : Debug.t) (name key : string) (σ : Debug.state).


(** The control of a key is bound to that key, on the clone. *)
Lemma control_for_property this c o key :
  controller_property (Debug.control_for this c o key) = key.
Proof. unfold Debug.control_for. by destruct (String.eqb key "color"). Qed.

Lemma control_for_object this c o key :
  controller_object (Debug.control_for this c o key) = c.
Proof. unfold Debug.control_for. by destruct (String.eqb key "color"). Qed.

Lemma control_for_color this c o :
  Debug.control_for this c o "color" = ColorController c "color".
Proof. reflexivity. Qed.

Lemma control_for_other this c o key :
  key ≠ "color" →
  Debug.control_for this c o key
  = RangeController c key
      (- ToNumber (get_property o key) * Debug.multiple this)
      (ToNumber (get_property o key) * Debug.multiple this).
Proof.
  intros Hne. unfold Debug.control_for.
  apply String.eqb_neq in Hne. by rewrite Hne.
Qed.

(** A property that holds a value other than [undefined] is one of the keys. *)
Lemma get_property_key o key :
  get_property o key ≠ VUndefined → key ∈ keys o.
Proof.
  unfold keys. induction o as [|[k w] o IH]; simpl; [done|].
  destruct (String.eqb k key) eqn:Ek.
  - apply String.eqb_eq in Ek as ->. intros _. apply list_elem_of_here.
  - intros Hv. apply list_elem_of_further, IH, Hv.
Qed.

End debug_add_facts.


(** ** [add], when the panel refuses a control *)

Section debug_add_partial.
Import JS DatGui.
Context {E : Ecma} {P : Panel}.
Implicit Types (h : heap) (gui : GUI) (o : object) (c l : loc).
Implicit Types (this : Debug.t) (name key : string) (cs : list controller).

(** The loop stops at the first key whose control the panel refuses: the
    controls of the keys before it are in the folder. *)
Lemma for_each_bind_key_partial this c o name h g0 keys :
  h !! c = Some o → ∀ cs,
  let r := for_each keys (Debug.bind_key this (length g0) c)
             (h, g0 ++ [Folder name cs]) in
  ∃ i,
    r.2 = (h, g0 ++ [Folder name
                       (cs ++ (Debug.control_for this c o <$> take i keys))])
    ∧ match r.1 with
      | Returned _ => i = length keys
      | Thrown e =>
          ∃ key, keys !! i = Some key
            ∧ refuses_controller r.2.2 h (length g0)
                (Debug.control_for this c o key) = Some e
      end.
Proof.
  intros Hc. induction keys as [|key keys IH]; intros cs; simpl.
  - exists 0. by rewrite app_nil_r.
  - unfold bind. rewrite (bind_key_register _ _ _ _ _ _ _ Hc), register_last.
    destruct (refuses_controller _ _ _ _) as [e|] eqn:Hr.
    + exists 0. simpl. rewrite app_nil_r. eauto.
    + destruct (IH (cs ++ [Debug.control_for this c o key])) as (i & Hst & Hout).
      exists (S i). simpl. rewrite Hst, <- app_assoc. split; [done|].
      destruct (for_each _ _ _).1; [by rewrite Hout|].
      rewrite Hst in Hout. simpl in Hout. rewrite <- app_assoc in Hout.
      exact Hout.
Qed.

(** The state a call of [add] ends in, whether it returns or throws. *)
Lemma add_state this name options h gui :
  let o := properties h options in
  let c := fresh (dom h) in
  let r := Debug.add this name options (h, gui) in
  r.2.1 = <[c := o]> h
  ∧ match r.1 with
    | Returned c' =>
        c' = c
        ∧ r.2.2 = gui ++ [Folder name (Debug.control_for this c o <$> keys o)]
    | Thrown e =>
        (refuses_folder gui name = Some e ∧ r.2.2 = gui)
        ∨ ∃ i key,
            keys o !! i = Some key
            ∧ r.2.2 = gui ++ [Folder name
                                (Debug.control_for this c o <$> take i (keys o))]
            ∧ refuses_controller r.2.2 (<[c := o]> h) (length gui)
                (Debug.control_for this c o key) = Some e
    end.
Proof.
  intros o c. unfold Debug.add, bind, Lodash.clone, alloc, addFolder. simpl.
  fold c o.
  destruct (refuses_folder gui name) as [e|] eqn:Hf; [simpl; auto|].
  unfold gets, ret. simpl.
  assert (Hc : <[c := o]> h !! c = Some o) by apply lookup_insert_eq.
  assert (Hp : properties (<[c := o]> h) c = o)
    by (unfold properties; by rewrite Hc).
  rewrite !Hp.
  destruct (for_each_bind_key_partial this c o name _ gui (keys o) Hc [])
    as (i & Hst & Hout). simpl in Hst, Hout.
  destruct (for_each _ _ _) as [[[]|e] σ]; simpl in *; subst σ; simpl.
  - subst i. by rewrite firstn_all.
  - split; [done|]. right. destruct Hout as (key & Hi & Hr). eauto.
Qed.



End debug_add_partial.

(** When a call of [add] throws, the panel refused the folder, and is as it
    was, or it refused, in the state the call ends in, a control bound to a
    key of the clone. *)
Lemma add_thrown_refused {E : JS.Ecma} {P : DatGui.Panel} this name options
    (h : JS.heap) (gui : DatGui.GUI) e σ :
  Debug.add this name options (h, gui) = (Thrown e, σ) →
  σ.1 = <[fresh (dom h) := JS.properties h options]> h
  ∧ ((DatGui.refuses_folder gui name = Some e ∧ σ.2 = gui)
     ∨ ∃ ctl,
         DatGui.controller_object ctl = fresh (dom h)
         ∧ DatGui.controller_property ctl ∈ JS.keys (JS.properties h options)
         ∧ DatGui.refuses_controller σ.2 σ.1 (length gui) ctl = Some e).
Proof.
  intros Hadd.
  destruct (add_state this name options h gui) as [Hh Hgui].
  rewrite Hadd in Hh, Hgui. simpl in Hh, Hgui. split; [exact Hh|].
  destruct Hgui as [Hfolder|(i & key & Hi & _ & Hr)]; [by left|right].
  eexists. split; [apply control_for_object|]. split.
  - rewrite control_for_property. by eapply list_elem_of_lookup_2.
  - rewrite Hh. exact Hr.
Qed.



(** The control of a key, spelled out. *)
Lemma control_for_cases {E : JS.Ecma} this c (o : JS.object) key :
  Debug.control_for this c o key
  = if decide (key = "color") then DatGui.ColorController c "color"
    else DatGui.RangeController c key
           (- JS.ToNumber (JS.get_property o key) * Debug.multiple this)
           (JS.ToNumber (JS.get_property o key) * Debug.multiple this).
Proof.
  case_decide as Hkey.
  - subst key. apply control_for_color.
  - by apply control_for_other.
Qed.

(** ** The claims about [Debug] *)

Section debug_claims.
Import JS DatGui.
Context {E : Ecma} {P : Panel}.
Implicit Types (h : heap) (gui : GUI) (o : object) (c l : loc).
Implicit Types (this : Debug.t) (name key : string) (σ : Debug.state).
Open Scope float_scope.


(** C2.  For a mapping [options] of the store, a call of [add] either
    throws the error with which the panel refused the folder or the control
    of a key of the clone, leaving [options] as it was, or returns a reference [c] that denoted no
    object before the call and is not [options].  After the call [c] denotes
    an object of its own with the properties of [options], and [options]
    holds what it held before the call; an assignment to a property of the
    clone is read back from the clone and leaves [options] as it is; the new
    folder has one control for each key, and every one of them is bound to
    the clone, so that an edit made through it is an assignment to the
    clone. *)
Theorem add_clone_is_distinct this name options h gui o :
  h !! options = Some o →
  match Debug.add this name options (h, gui) with
  | (Returned c, σ) =>
      h !! c = None
      ∧ c ≠ options
      ∧ σ.1 !! c = Some o
      ∧ σ.1 !! options = Some o
      ∧ (∀ key v, write σ.1 c key v !! options = Some o
                  ∧ read (write σ.1 c key v) c key = v)
      ∧ (∃ f, σ.2 !! length gui = Some f
           ∧ length (controllers f) = length (keys o)
           ∧ ∀ ctl, ctl ∈ controllers f → controller_object ctl = c)
  | (Thrown e, σ) =>
      σ.1 !! options = Some o
      ∧ ((refuses_folder gui name = Some e ∧ σ.2 = gui)
         ∨ ∃ ctl,
             controller_object ctl = fresh (dom h)
             ∧ controller_property ctl ∈ keys o
             ∧ refuses_controller σ.2 σ.1 (length gui) ctl = Some e)
  end.
Proof.
  intros Ho.
  assert (Hne : fresh (dom h) ≠ options) by (apply fresh_ne; eauto).
  assert (Hpo : properties h options = o) by (unfold properties; by rewrite Ho).
  pose proof (add_run this name options h gui) as Hrun. simpl in Hrun.
  rewrite Hpo in Hrun.
  destruct (Debug.add this name options (h, gui)) as [[c|e] σ] eqn:Hadd.
  - destruct Hrun as (_ & -> & ->). simpl.
    split; [apply (alloc_fresh h [])|]. split; [done|].
    split; [by rewrite lookup_insert_eq|].
    split; [by rewrite lookup_insert_ne|]. split.
    + intros key v. split.
      * rewrite write_other by done. by rewrite lookup_insert_ne.
      * apply read_write_eq. by rewrite lookup_insert_eq.
    + eexists. split; [|split].
      * rewrite lookup_app_r by done. by rewrite Nat.sub_diag.
      * simpl. by rewrite length_fmap.
      * simpl. intros ctl [key [-> _]]%list_elem_of_fmap.
        apply control_for_object.
  - destruct (add_thrown_refused _ _ _ _ _ _ _ Hadd) as [Hh Hr].
    rewrite Hpo in Hh, Hr. split; [|exact Hr].
    rewrite Hh. by rewrite lookup_insert_ne.
Qed.

(** C3.  For a mapping [options] of the store that has no key [color], a
    call of [add] either throws the error with which the panel refused the
    folder or the control of a key of the clone, or returns a reference that
    denoted no object
    before the call and is not [options], and that denotes after the call an
    object with the keys of [options], in the same order, holding at every
    key the value [options] held at the call. *)
Theorem add_returns_copy this name options h gui o :
  h !! options = Some o →
  "color" ∉ keys o →
  match Debug.add this name options (h, gui) with
  | (Returned c, σ) =>
      h !! c = None
      ∧ c ≠ options
      ∧ σ.1 !! c = Some o
      ∧ keys (properties σ.1 c) = keys o
      ∧ (∀ key, read σ.1 c key = read h options key)
  | (Thrown e, σ) =>
      (refuses_folder gui name = Some e ∧ σ.2 = gui)
      ∨ ∃ ctl,
          controller_object ctl = fresh (dom h)
          ∧ controller_property ctl ∈ keys o
          ∧ refuses_controller σ.2 σ.1 (length gui) ctl = Some e
  end.
Proof.
  intros Ho _.
  assert (Hne : fresh (dom h) ≠ options) by (apply fresh_ne; eauto).
  assert (Hpo : properties h options = o) by (unfold properties; by rewrite Ho).
  pose proof (add_run this name options h gui) as Hrun. simpl in Hrun.
  rewrite Hpo in Hrun.
  destruct (Debug.add this name options (h, gui)) as [[c|e] σ] eqn:Hadd.
  2: { destruct (add_thrown_refused _ _ _ _ _ _ _ Hadd) as [_ Hr].
       by rewrite Hpo in Hr. }
  destruct Hrun as (_ & -> & ->). simpl.
  split; [apply (alloc_fresh h [])|]. split; [done|].
  split; [by rewrite lookup_insert_eq|].
  assert (Hpc : properties (<[fresh (dom h) := o]> h) (fresh (dom h)) = o)
    by (unfold properties; by rewrite lookup_insert_eq).
  unfold read. by rewrite Hpc, Hpo.
Qed.


(** C9.  Let the mapping [options] hold, at [key], a reference [l] to
    another object of the store.  A call of [add] either throws an error the
    panel raised, or returns a clone that is neither [options] nor that
    object and holds, at [key], the same reference [l]: after an assignment
    to a property [k] of the object read through the clone, the property
    read through [options] has the value assigned. *)
Theorem add_copy_is_shallow this name options h gui o key l :
  h !! options = Some o →
  get_property o key = VObject l →
  is_Some (h !! l) →
  l ≠ options →
  match Debug.add this name options (h, gui) with
  | (Returned c, σ) =>
      c ≠ options ∧ c ≠ l
      ∧ read σ.1 c key = VObject l
      ∧ read σ.1 options key = VObject l
      ∧ ∀ k v, let h' := write σ.1 l k v in
          read h' c key = VObject l
          ∧ read h' options key = VObject l
          ∧ read h' l k = v
  | (Thrown e, _) => raises e
  end.
Proof.
  intros Ho Hkey Hl Hlo.
  assert (Hco : fresh (dom h) ≠ options) by (apply fresh_ne; eauto).
  assert (Hcl : fresh (dom h) ≠ l) by by apply fresh_ne.
  pose proof (add_outcome this name options h gui) as Hout. simpl in Hout.
  destruct (Debug.add this name options (h, gui)) as [[c|e] σ]; [|apply Hout].
  destruct Hout as [-> ->]. simpl.
  set (c := fresh (dom h)) in *.
  assert (Hpo : properties h options = o) by (unfold properties; by rewrite Ho).
  rewrite Hpo.
  assert (Hrc : read (<[c := o]> h) c key = VObject l).
  { rewrite (read_lookup _ _ o); [done|]. by rewrite lookup_insert_eq. }
  assert (Hro : read (<[c := o]> h) options key = VObject l).
  { rewrite (read_lookup _ _ o); [done|]. by rewrite lookup_insert_ne. }
  split; [done|]. split; [done|]. split; [done|]. split; [done|].
  intros k v. split; [|split].
  - by rewrite read_write_other.
  - by rewrite read_write_other.
  - apply read_write_eq. by rewrite lookup_insert_ne.
Qed.

End debug_claims.



(** The permissive panel raises no error. *)
Lemma permissive_raises e : DatGui.raises (P := DatGui.permissive) e → False.
Proof. intros [(? & ? & Hr)|(? & ? & ? & ? & Hr)]; discriminate Hr. Qed.

(** C2, witness: the mapping [{ intensity: 2, color: ... }] at reference 2;
    the clone is assigned [intensity = 4]. *)
Lemma add_clone_is_distinct_witness :
  ∃ c σ,
    Debug.add (E := Sample.no_strings) (P := DatGui.permissive)
      (Debug.constructor None) "Light" 2%positive (Sample.light_heap, [])
    = (Returned c, σ)
    ∧ Sample.light_heap !! c = None
    ∧ c ≠ 2%positive
    ∧ σ.1 !! c
      = Some [("intensity", JS.VNumber 2); ("color", JS.VObject 1%positive)]
    ∧ JS.write σ.1 c "intensity" (JS.VNumber 4) !! 2%positive
      = Some [("intensity", JS.VNumber 2); ("color", JS.VObject 1%positive)]
    ∧ JS.read (JS.write σ.1 c "intensity" (JS.VNumber 4)) c "intensity"
      = JS.VNumber 4.
Proof.
  pose proof (add_clone_is_distinct (E := Sample.no_strings)
                (P := DatGui.permissive) (Debug.constructor None) "Light"
                2%positive Sample.light_heap [] _ eq_refl) as Hw.
  destruct (Debug.add _ _ _ _) as [[c|e] σ].
  - exists c, σ. destruct Hw as (Hnew & Hne & Hc & _ & Hwrite & _).
    destruct (Hwrite "intensity" (JS.VNumber 4)) as [Hkeep Hread]. auto 10.
  - destruct Hw as [_ [[Hr _]|(? & _ & _ & Hr)]]; discriminate Hr.
Defined.

(** C3, witness: the mapping [{ x: -2, y: 5 }] at reference 1. *)
Lemma add_returns_copy_witness :
  ∃ c σ,
    Debug.add (E := Sample.no_strings) (P := DatGui.permissive)
      (Debug.constructor None) "Position" 1%positive (Sample.position_heap, [])
    = (Returned c, σ)
    ∧ c ≠ 1%positive
    ∧ σ.1 !! c = Some [("x", JS.VNumber (-2)); ("y", JS.VNumber 5)]
    ∧ JS.keys (JS.properties σ.1 c) = ["x"; "y"]
    ∧ JS.read σ.1 c "x" = JS.VNumber (-2)
    ∧ JS.read σ.1 c "y" = JS.VNumber 5.
Proof.
  assert (Hnocolor : "color" ∉ JS.keys [("x", JS.VNumber (-2)); ("y", JS.VNumber 5)]).
  { intros Hin. apply list_elem_of_In in Hin. simpl in Hin.
    destruct Hin as [Hin|[Hin|[]]]; discriminate Hin. }
  pose proof (add_returns_copy (E := Sample.no_strings)
                (P := DatGui.permissive) (Debug.constructor None) "Position"
                1%positive Sample.position_heap [] _ eq_refl Hnocolor) as Hw.
  destruct (Debug.add _ _ _ _) as [[c|e] σ].
  - exists c, σ. destruct Hw as (_ & Hne & Hc & Hkeys & Hread).
    split; [reflexivity|]. split; [exact Hne|]. split; [exact Hc|].
    split; [exact Hkeys|]. split; [apply (Hread "x")|apply (Hread "y")].
  - destruct Hw as [[Hr _]|(? & _ & _ & Hr)]; discriminate Hr.
Defined.



(** C9, witness: the colour of [{ intensity: 2, color: ... }] is the object
    at reference 1; after [clone.color.r = 0.5] the original reads it. *)
Lemma add_copy_is_shallow_witness :
  ∃ c σ,
    Debug.add (E := Sample.no_strings) (P := DatGui.permissive)
      (Debug.constructor None) "Light" 2%positive (Sample.light_heap, [])
    = (Returned c, σ)
    ∧ JS.read σ.1 c "color" = JS.VObject 1%positive
    ∧ JS.read (JS.write σ.1 1%positive "r" (JS.VNumber 0.5)) 2%positive "color"
      = JS.VObject 1%positive
    ∧ JS.read (JS.write σ.1 1%positive "r" (JS.VNumber 0.5)) 1%positive "r"
      = JS.VNumber 0.5.
Proof.
  assert (Hl : is_Some (Sample.light_heap !! 1%positive)) by (eexists; reflexivity).
  assert (Hne : 1%positive ≠ 2%positive) by discriminate.
  pose proof (add_copy_is_shallow (E := Sample.no_strings)
                (P := DatGui.permissive) (Debug.constructor None) "Light"
                2%positive Sample.light_heap [] _ "color" 1%positive
                eq_refl eq_refl Hl Hne) as Hw.
  destruct (Debug.add _ _ _ _) as [[c|e] σ].
  - exists c, σ. destruct Hw as (_ & _ & Hc & _ & Hmut).
    destruct (Hmut "r" (JS.VNumber 0.5)) as (_ & Ho & Hr).
    split; [reflexivity|]. split; [exact Hc|]. split; [exact Ho|exact Hr].
  - destruct (permissive_raises _ Hw).
Defined.




(** C8.  The constructor of [Debug] takes one argument, the multiple; when
    it is omitted the multiple is 3, and otherwise the one given.  With the
    default, a call of [add] that does not throw leaves a folder whose
    control for a key other than [color] has the bounds [-x * 3] and [x * 3],
    where [x] is the value of the property as a number: for
    [{ intensity: 2, color: { r: 1, g: 1, b: 1 } }] and the name [Light], a
    range control from [-6] to [6] for [intensity] and a colour control for
    [color], both bound to the clone. *)
Theorem default_multiple :
  Debug.multiple (Debug.constructor None) = 3%float
  ∧ (∀ m, Debug.multiple (Debug.constructor (Some m)) = m)
  ∧ (∀ (E : JS.Ecma) (P : DatGui.Panel) name options (h : JS.heap)
       (gui : DatGui.GUI),
       let o := JS.properties h options in
       match Debug.add (Debug.constructor None) name options (h, gui) with
       | (Returned c, σ) =>
           σ.2 = gui ++
             [DatGui.Folder name
                ((λ key,
                    if String.eqb key "color" then DatGui.ColorController c key
                    else DatGui.RangeController c key
                           (- JS.ToNumber (JS.get_property o key) * 3)
                           (JS.ToNumber (JS.get_property o key) * 3))
                   <$> JS.keys o)]
       | (Thrown e, _) => DatGui.raises e
       end)
  ∧ Debug.add (E := Sample.no_strings) (P := DatGui.permissive)
      (Debug.constructor None) "Light" 2%positive (Sample.light_heap, [])
    = (Returned 3%positive,
       (<[3%positive := [("intensity", JS.VNumber 2);
                         ("color", JS.VObject 1%positive)]]> Sample.light_heap,
        [DatGui.Folder "Light"
           [DatGui.RangeController 3%positive "intensity" (-6) 6;
            DatGui.ColorController 3%positive "color"]])).
Proof.
  split; [reflexivity|]. split; [reflexivity|]. split; [|reflexivity].
  intros E P name options h gui o.
  pose proof (add_outcome (Debug.constructor None) name options h gui) as Hout.
  simpl in Hout.
  destruct (Debug.add _ name options (h, gui)) as [[c|e] σ]; [|apply Hout].
  destruct Hout as [-> ->]. reflexivity.
Qed.

(** ** The constructor of [Lego] *)

Section lego_constructor.
Import Dom Lego.
Context {engine : Engine} (WEBGL : WebGL).
Implicit Types (d : document) (el : node) (options : LegoOptions).

Lemma compatibilityCheck_available el d :
  isWebGLAvailable WEBGL = true →
  compatibilityCheck WEBGL el d = (Returned true, d).
Proof. intros Ha. unfold compatibilityCheck. by rewrite Ha. Qed.

Lemma compatibilityCheck_unavailable el d :
  isWebGLAvailable WEBGL = false →
  compatibilityCheck WEBGL el d
  = (Returned false, appendChild el (getWebGLErrorMessage WEBGL) d).
Proof. intros Ha. unfold compatibilityCheck. by rewrite Ha. Qed.

Lemma call_returns {A : Type} (f : document → A * document) d :
  call f d = (Returned (f d).1, (f d).2).
Proof. unfold call. by destruct (f d). Qed.

(** No element: the first error. *)
Lemma constructor_no_element options d :
  options_el options = None →
  constructor WEBGL options d = (Thrown mount_error, d).
Proof. intros Hel. unfold constructor. by rewrite Hel. Qed.

(** An element that is not a [div]: the first error. *)
Lemma constructor_wrong_element options d el :
  options_el options = Some el →
  String.eqb (el_toString d el) "[object HTMLDivElement]" = false →
  constructor WEBGL options d = (Thrown mount_error, d).
Proof.
  intros Hel Hs. unfold constructor. rewrite Hel.
  unfold bind, gets. by rewrite Hs.
Qed.

(** A [div], no WebGL: the second error, after the warning is appended. *)
Lemma constructor_no_webgl options d el :
  options_el options = Some el →
  String.eqb (el_toString d el) "[object HTMLDivElement]" = true →
  isWebGLAvailable WEBGL = false →
  constructor WEBGL options d
  = (Thrown webgl_error, appendChild el (getWebGLErrorMessage WEBGL) d).
Proof.
  intros Hel Hs Ha. unfold constructor. rewrite Hel.
  unfold bind at 1. unfold gets. rewrite Hs. simpl.
  unfold bind. by rewrite (compatibilityCheck_unavailable _ _ Ha).
Qed.

(** A [div] and WebGL: the constructor returns a composer mounted in it. *)
Lemma constructor_returns options d el :
  options_el options = Some el →
  String.eqb (el_toString d el) "[object HTMLDivElement]" = true →
  isWebGLAvailable WEBGL = true →
  ∃ lego d',
    constructor WEBGL options d = (Returned lego, d')
    ∧ Lego.el lego = el ∧ debugList lego = [] ∧ ground lego = None.
Proof.
  intros Hel Hs Ha. unfold constructor. rewrite Hel.
  unfold bind at 1. unfold gets. rewrite Hs. simpl.
  unfold bind at 1. rewrite (compatibilityCheck_available _ _ Ha). simpl.
  unfold bind, initScene, initCamera, initAmbientLight, initDirectionalLight,
    initRenderer, initControl.
  repeat (rewrite call_returns; simpl).
  unfold ret. eexists _, _. split; [reflexivity|]. done.
Qed.

End lego_constructor.

(** ** The animation loop *)

Section lego_animate.
Import Lego.
Context {engine : Engine}.
Implicit Types (w : world) (lego : Lego.t) (tr : list event).

Lemma for_each_emit (fs : list Function) w :
  for_each fs (λ f, emit (Call f)) w
  = (Returned tt, World (this w) (trace w ++ (Call <$> fs)) (scheduled w)).
Proof.
  revert w. induction fs as [|f fs IH]; intros w; simpl.
  - rewrite app_nil_r. by destruct w.
  - unfold bind, emit, modify. rewrite IH. simpl. by rewrite <- app_assoc.
Qed.

(** One run of [animate]: the calls of [tick], in their order, and one
    request for the next frame. *)
Lemma animate_run w :
  animate w
  = (Returned tt,
     World (this w) (trace w ++ tick (this w)) (scheduled w ++ [Animate])).
Proof.
  unfold animate, bind, gets. rewrite for_each_emit.
  unfold requestAnimationFrame, bind, emit, modify, tick. simpl.
  by rewrite <- !app_assoc.
Qed.

Lemma frame_run lego tr :
  frame (World lego tr [Animate])
  = (Returned tt, World lego (tr ++ tick lego) [Animate]).
Proof.
  unfold frame, bind, gets, modify. simpl.
  unfold bind. rewrite animate_run. reflexivity.
Qed.

Lemma frames_run n lego : ∀ tr,
  frames n (World lego tr [Animate])
  = (Returned tt,
     World lego (tr ++ concat (replicate n (tick lego))) [Animate]).
Proof.
  induction n as [|n IH]; intros tr; simpl.
  - by rewrite app_nil_r.
  - unfold bind. rewrite frame_run, IH. by rewrite <- app_assoc.
Qed.

End lego_animate.

(** ** The claims about [Lego] *)

(** C7.  A run of [animate] calls each function of [debugList], in the
    order of the list, then updates the control, then renders the scene with
    the camera, once, then asks the platform to run [animate] at the next
    frame, and returns.  So, from the first run on, every frame of the
    platform runs [animate] once more: after the first run and [n] frames the
    trace has grown by [n + 1] times these calls, and [animate] is scheduled
    again. *)
Theorem animate_order {engine : Lego.Engine} (w : Lego.world) (n : nat) :
  let lego := Lego.this w in
  Lego.animate w
  = (Returned tt,
     Lego.World lego
       (Lego.trace w
        ++ (Lego.Call <$> Lego.debugList lego)
        ++ [Lego.ControlUpdate (Lego.control lego);
            Lego.RendererRender (Lego.renderer lego) (Lego.scene lego)
              (Lego.camera lego);
            Lego.RequestAnimationFrame Lego.Animate])
       (Lego.scheduled w ++ [Lego.Animate]))
  ∧ (Lego.animate ;; Lego.frames n) (Lego.World lego (Lego.trace w) [])
    = (Returned tt,
       Lego.World lego
         (Lego.trace w ++ concat (replicate (S n) (Lego.tick lego)))
         [Lego.Animate]).
Proof.
  intros lego. split.
  - apply animate_run.
  - unfold bind. rewrite animate_run. simpl.
    rewrite frames_run. by rewrite <- app_assoc.
Qed.



(** C10.  With a [div] of the page as the element and no WebGL,
    [compatibilityCheck] appends the warning of [WEBGL] to the children of
    the element and returns [false], and the constructor throws the second
    error in the page so changed: the element has the warning as its last
    child, and every other node is as it was. *)
Theorem constructor_appends_warning {engine : Lego.Engine} (WEBGL : Lego.WebGL)
    (options : Lego.LegoOptions) (d : Dom.document) (el : Dom.node)
    (e : Dom.element) :
  Lego.options_el options = Some el →
  d !! el = Some e →
  Dom.toString e = "[object HTMLDivElement]" →
  Lego.isWebGLAvailable WEBGL = false →
  let warning := Lego.getWebGLErrorMessage WEBGL in
  ∃ d',
    Lego.compatibilityCheck WEBGL el d = (Returned false, d')
    ∧ Lego.constructor WEBGL options d = (Thrown Lego.webgl_error, d')
    ∧ d' !! el = Some (Dom.Element (Dom.toString e) (Dom.childNodes e ++ [warning]))
    ∧ d' ≠ d
    ∧ ∀ n, n ≠ el → d' !! n = d !! n.
Proof.
  intros Hel Hd Hs Ha warning.
  exists (Dom.appendChild el warning d).
  assert (Hnew : Dom.appendChild el warning d !! el
                 = Some (Dom.Element (Dom.toString e) (Dom.childNodes e ++ [warning]))).
  { unfold Dom.appendChild. by rewrite lookup_alter_eq, Hd. }
  split; [by apply compatibilityCheck_unavailable|].
  split.
  { apply constructor_no_webgl; [done| |done].
    unfold Dom.el_toString. by rewrite Hd; simpl; rewrite Hs. }
  split; [exact Hnew|]. split.
  - intros Heq. rewrite Heq, Hd in Hnew.
    injection Hnew as Hnew. destruct e as [s ns]. simpl in Hnew.
    injection Hnew as Hnew. apply (f_equal length) in Hnew.
    rewrite length_app in Hnew. simpl in Hnew. lia.
  - intros n Hn. unfold Dom.appendChild. by rewrite lookup_alter_ne.
Qed.

(** C10, witness: the page of the samples, its [div], no WebGL. *)
Lemma constructor_appends_warning_witness :
  ∃ d',
    Lego.constructor Sample.without_webgl (Sample.mount (Some 1%positive))
      Sample.page
    = (Thrown Lego.webgl_error, d')
    ∧ d' !! 1%positive
      = Some (Dom.Element "[object HTMLDivElement]" [5%positive; 7%positive]).
Proof.
  destruct (constructor_appends_warning (engine := Sample.engine)
              Sample.without_webgl (Sample.mount (Some 1%positive))
              Sample.page 1%positive _ eq_refl eq_refl eq_refl eq_refl)
    as (d' & _ & Hc & Hd' & _).
  exists d'. split; [exact Hc|exact Hd'].
Defined.

(** ** Further properties *)

(** X1.  In the folder a call of [add] leaves, the control of a key other
    than [color] that holds the number [v] has the bounds [-(v * m)] and
    [v * m], and every control with a range has the opposite of its maximum
    as its minimum; when [v] and the multiple are both positive the minimum
    is not above the maximum. *)
Theorem range_is_symmetric {E : JS.Ecma} {P : DatGui.Panel} this name options
    (h : JS.heap) (gui : DatGui.GUI) key v :
  JS.get_property (JS.properties h options) key = JS.VNumber v →
  key ≠ "color" →
  let m := Debug.multiple this in
  match Debug.add this name options (h, gui) with
  | (Returned c, σ) =>
      ∃ f, σ.2 !! length gui = Some f
        ∧ DatGui.RangeController c key (- (v * m)) (v * m)
          ∈ DatGui.controllers f
        ∧ ∀ ctl lo hi, ctl ∈ DatGui.controllers f →
            DatGui.controller_range ctl = Some (lo, hi) → lo = (- hi)%float
  | (Thrown e, σ) =>
      (DatGui.refuses_folder gui name = Some e ∧ σ.2 = gui)
      ∨ ∃ ctl,
          DatGui.controller_object ctl = fresh (dom h)
          ∧ DatGui.controller_property ctl ∈ JS.keys (JS.properties h options)
          ∧ DatGui.refuses_controller σ.2 σ.1 (length gui) ctl = Some e
  end
  ∧ ((0 <? v)%float = true → (0 <? m)%float = true →
     (- (v * m) <=? v * m)%float = true).
Proof.
  intros Hv Hkey m. split.
  - pose proof (add_run this name options h gui) as Hrun. simpl in Hrun.
    destruct (Debug.add this name options (h, gui)) as [[c|e] σ] eqn:Hadd.
    2: { by destruct (add_thrown_refused _ _ _ _ _ _ _ Hadd). }
    destruct Hrun as (_ & -> & ->). simpl.
    eexists. split; [|split].
    + rewrite lookup_app_r by done. by rewrite Nat.sub_diag.
    + simpl. rewrite <- opp_mul_l.
      replace (DatGui.RangeController _ key _ _)
        with (Debug.control_for this (fresh (dom h)) (JS.properties h options)
                key).
      { apply list_elem_of_fmap_2, get_property_key. by rewrite Hv. }
      rewrite control_for_other by done. by rewrite Hv.
    + simpl. intros ctl lo hi [key' [-> _]]%list_elem_of_fmap.
      rewrite control_for_cases. case_decide; simpl; [discriminate|].
      intros [= <- <-]. apply opp_mul_l.
  - intros Hpos Hm. rewrite <- opp_mul_l. by apply mul_pos_pos_le.
Qed.

(** X1, witness: the key [y] of [{ x: -2, y: 5 }], multiple 3. *)
Lemma range_is_symmetric_witness :
  ∃ c σ f,
    Debug.add (E := Sample.no_strings) (P := DatGui.permissive)
      (Debug.constructor None) "Position" 1%positive (Sample.position_heap, [])
    = (Returned c, σ)
    ∧ σ.2 !! 0%nat = Some f
    ∧ DatGui.RangeController c "y" (-15) 15 ∈ DatGui.controllers f
    ∧ (-15 <=? 15)%float = true.
Proof.
  pose proof (range_is_symmetric (E := Sample.no_strings)
                (P := DatGui.permissive) (Debug.constructor None) "Position"
                1%positive Sample.position_heap [] "y" 5%float) as Hw.
  simpl in Hw. destruct Hw as [Hadd Hord]; [reflexivity|discriminate|].
  destruct (Debug.add _ _ _ _) as [[c|e] σ].
  - destruct Hadd as (f & Hf & Hin & _). exists c, σ, f.
    split; [reflexivity|]. split; [exact Hf|]. split; [exact Hin|].
    apply Hord; reflexivity.
  - destruct Hadd as [[Hr _]|(? & _ & _ & Hr)]; discriminate Hr.
Defined.

(** X2.  For a mapping with no property, [add] leaves a folder with no
    control, unless the panel refuses the folder. *)
Theorem add_empty_mapping {E : JS.Ecma} {P : DatGui.Panel} this name options
    (h : JS.heap) (gui : DatGui.GUI) :
  h !! options = Some [] →
  match Debug.add this name options (h, gui) with
  | (Returned c, σ) => σ.2 = gui ++ [DatGui.Folder name []]
  | (Thrown e, σ) => DatGui.refuses_folder gui name = Some e ∧ σ.2 = gui
  end.
Proof.
  intros Ho. unfold Debug.add, bind, Lodash.clone, JS.alloc, DatGui.addFolder.
  simpl. destruct (DatGui.refuses_folder gui name) as [e|]; [done|].
  unfold gets, ret. simpl. unfold JS.properties.
  rewrite lookup_insert_eq, Ho. reflexivity.
Qed.

(** X2, witness: an empty mapping at reference 1. *)
Lemma add_empty_mapping_witness :
  ∃ c σ,
    Debug.add (E := Sample.no_strings) (P := DatGui.permissive)
      (Debug.constructor None) "Empty" 1%positive ({[ 1%positive := [] ]}, [])
    = (Returned c, σ)
    ∧ σ.2 = [DatGui.Folder "Empty" []].
Proof.
  pose proof (add_empty_mapping (E := Sample.no_strings) (P := DatGui.permissive)
                (Debug.constructor None) "Empty" 1%positive
                {[ 1%positive := [] ]} [] eq_refl) as Hw.
  destruct (Debug.add _ _ _ _) as [[c|e] σ].
  - exists c, σ. split; [reflexivity|exact Hw].
  - destruct Hw as [Hr _]. discriminate Hr.
Defined.

(** X4.  A throw of the first error leaves the page as it is, whether or
    not the environment supports WebGL: the element is checked before the
    support is. *)
Theorem mount_error_first {engine : Lego.Engine} (WEBGL : Lego.WebGL)
    (options : Lego.LegoOptions) (d d' : Dom.document) :
  Lego.constructor WEBGL options d = (Thrown Lego.mount_error, d') →
  d' = d
  ∧ match Lego.options_el options with
    | None => True
    | Some el =>
        String.eqb (Dom.el_toString d el) "[object HTMLDivElement]" = false
    end.
Proof.
  intros Hc. destruct (Lego.options_el options) as [el|] eqn:Hel.
  - destruct (String.eqb (Dom.el_toString d el) "[object HTMLDivElement]") eqn:Hs.
    + destruct (Lego.isWebGLAvailable WEBGL) eqn:Ha.
      * destruct (constructor_returns WEBGL options d el Hel Hs Ha)
          as (lego & d'' & Hr & _).
        rewrite Hr in Hc. discriminate Hc.
      * rewrite (constructor_no_webgl WEBGL options d el Hel Hs Ha) in Hc.
        discriminate Hc.
    + rewrite (constructor_wrong_element WEBGL options d el Hel Hs) in Hc.
      by injection Hc as <-.
  - rewrite (constructor_no_element WEBGL options d Hel) in Hc.
    by injection Hc as <-.
Qed.

(** X4, witness: the [span] of the sample page as the element. *)
Lemma mount_error_first_witness :
  Lego.constructor Sample.without_webgl (Sample.mount (Some 2%positive))
    Sample.page
  = (Thrown Lego.mount_error, Sample.page)
  ∧ String.eqb (Dom.el_toString Sample.page 2%positive) "[object HTMLDivElement]"
    = false.
Proof.
  destruct (mount_error_first (engine := Sample.engine) Sample.without_webgl
              (Sample.mount (Some 2%positive)) Sample.page Sample.page eq_refl)
    as [_ Hs].
  split; [reflexivity|exact Hs].
Defined.

(** ** Numbers: the zeros *)

Section Number_edge.
Open Scope float_scope.

(** A zero times a finite number is a zero. *)
Lemma mul_zero_finite (z m : float) :
  (z =? 0) = true → (abs m <? infinity) = true →
  (z * m =? 0) = true ∧ (- z * m =? 0) = true.
Proof.
  rewrite opp_mul_l.
  rewrite !FloatAxioms.eqb_spec, ltb_spec, abs_spec, opp_spec, mul_spec.
  change (Prim2SF 0) with (S754_zero false).
  change (Prim2SF infinity) with (S754_infinity false).
  destruct (Prim2SF z) as [sz|sz| |sz mz ez], (Prim2SF m) as [sm|sm| |sm mm em];
    simpl; try discriminate; try (destruct sz; discriminate); auto.
Qed.

End Number_edge.

(** ** Further properties of [add] *)

(** X5.  A call of [add], whether it returns or throws, leaves every object
    of the store as it was and adds exactly one object, the clone; it leaves
    every folder of the panel as it was and adds at most one folder, after
    them. *)
Theorem add_only_adds {E : JS.Ecma} {P : DatGui.Panel} this name options
    (h : JS.heap) (gui : DatGui.GUI) :
  let r := Debug.add this name options (h, gui) in
  h ⊆ r.2.1
  ∧ dom r.2.1 = {[fresh (dom h)]} ∪ dom h
  ∧ gui `prefix_of` r.2.2
  ∧ length r.2.2 ≤ S (length gui).
Proof.
  intros r. destruct (add_state this name options h gui) as [Hh Hgui].
  fold r in Hh, Hgui. rewrite Hh. split; [|split].
  - apply insert_subseteq, not_elem_of_dom, is_fresh.
  - apply dom_insert_L.
  - destruct r.1 as [c|e].
    + destruct Hgui as [_ ->]. split; [by apply prefix_app_r|].
      rewrite length_app. simpl. lia.
    + destruct Hgui as [[_ ->]|(i & key & _ & -> & _)].
      * split; [done|lia].
      * split; [by apply prefix_app_r|]. rewrite length_app. simpl. lia.
Qed.

(** X6.  [add] is not atomic.  When it throws, the clone has been made and
    is not returned; and either the panel refused the folder and is as it
    was, or the panel refused the control of some key: then the new folder
    stays in the panel, with the controls of the keys before that one. *)
Theorem add_is_not_atomic {E : JS.Ecma} {P : DatGui.Panel} this name options
    (h : JS.heap) (gui : DatGui.GUI) e σ :
  Debug.add this name options (h, gui) = (Thrown e, σ) →
  let o := JS.properties h options in
  let c := fresh (dom h) in
  h !! c = None
  ∧ σ.1 !! c = Some o
  ∧ ((DatGui.refuses_folder gui name = Some e ∧ σ.2 = gui)
     ∨ ∃ i key,
         JS.keys o !! i = Some key
         ∧ σ.2 = gui ++ [DatGui.Folder name
                           (Debug.control_for this c o <$> take i (JS.keys o))]
         ∧ DatGui.refuses_controller σ.2 σ.1 (length gui)
             (Debug.control_for this c o key) = Some e).
Proof.
  intros Hadd o c.
  destruct (add_state this name options h gui) as [Hh Hgui].
  rewrite Hadd in Hh, Hgui. simpl in Hh, Hgui. fold o c in Hh, Hgui.
  split; [apply not_elem_of_dom, is_fresh|].
  split; [rewrite Hh; apply lookup_insert_eq|].
  rewrite Hh. exact Hgui.
Qed.

(** X6, witness: [{ a: 1, b: undefined, c: 2 }] and a panel that refuses a
    property holding [undefined]: the folder keeps the control of [a]. *)
Lemma add_is_not_atomic_witness :
  ∃ σ,
    Debug.add (E := Sample.no_strings) (P := Cases.defined_properties)
      (Debug.constructor None) "Gap" 1%positive (Cases.gap_heap, [])
    = (Thrown (Error "Object has no property b"), σ)
    ∧ σ.2 = [DatGui.Folder "Gap" [DatGui.RangeController 2%positive "a" (-3) 3]]
    ∧ is_Some (σ.1 !! 2%positive).
Proof.
  set (r := Debug.add (E := Sample.no_strings) (P := Cases.defined_properties)
              (Debug.constructor None) "Gap" 1%positive (Cases.gap_heap, [])).
  assert (Hadd : r = (Thrown (Error "Object has no property b"), r.2))
    by reflexivity.
  destruct (add_is_not_atomic (E := Sample.no_strings)
              (P := Cases.defined_properties) (Debug.constructor None) "Gap"
              1%positive Cases.gap_heap [] _ _ Hadd) as (_ & Hclone & _).
  exists r.2. split; [exact Hadd|]. split; [reflexivity|].
  eexists. exact Hclone.
Defined.

Section debug_degenerate.
Import JS DatGui.
Context {E : Ecma} {P : Panel}.
Open Scope float_scope.

(** X8.  A key other than [color] whose property holds a zero gets, for
    every finite multiple, a control whose two bounds are zeros: the range
    is reduced to one point. *)
Theorem add_zero_range this name options (h : heap) (gui : GUI) key v :
  get_property (properties h options) key = VNumber v →
  key ≠ "color" →
  (v =? 0) = true →
  (abs (Debug.multiple this) <? infinity) = true →
  match Debug.add this name options (h, gui) with
  | (Returned c, σ) =>
      ∃ f lo hi, σ.2 !! length gui = Some f
        ∧ RangeController c key lo hi ∈ controllers f
        ∧ (lo =? 0) = true ∧ (hi =? 0) = true
  | (Thrown e, _) => raises e
  end.
Proof.
  intros Hv Hkey Hzero Hfin.
  pose proof (add_outcome this name options h gui) as Hout. simpl in Hout.
  destruct (Debug.add this name options (h, gui)) as [[c|e] σ]; [|apply Hout].
  destruct Hout as [-> ->]. simpl.
  destruct (mul_zero_finite v (Debug.multiple this) Hzero Hfin) as [Hhi Hlo].
  eexists _, (- v * Debug.multiple this), (v * Debug.multiple this).
  split; [|split; [|done]].
  { rewrite lookup_app_r by done. by rewrite Nat.sub_diag. }
  simpl.
  replace (RangeController _ key _ _)
    with (Debug.control_for this (fresh (dom h)) (properties h options) key).
  { apply list_elem_of_fmap_2, get_property_key. by rewrite Hv. }
  rewrite control_for_other by done. by rewrite Hv.
Qed.

End debug_degenerate.

(** X8, witness: the key [offset] of the same mapping, multiple 3. *)
Lemma add_zero_range_witness :
  ∃ c σ f lo hi,
    Debug.add (E := Sample.no_strings) (P := DatGui.permissive)
      (Debug.constructor None) "Zero" 2%positive (Cases.zero_heap, [])
    = (Returned c, σ)
    ∧ σ.2 !! 0%nat = Some f
    ∧ DatGui.RangeController c "offset" lo hi ∈ DatGui.controllers f
    ∧ (lo =? 0)%float = true ∧ (hi =? 0)%float = true.
Proof.
  assert (Hne : "offset" ≠ "color") by discriminate.
  pose proof (add_zero_range (E := Sample.no_strings) (P := DatGui.permissive)
                (Debug.constructor None) "Zero" 2%positive Cases.zero_heap []
                "offset" 0%float eq_refl Hne eq_refl eq_refl) as Hw.
  destruct (Debug.add _ _ _ _) as [[c|e] σ].
  - destruct Hw as (f & lo & hi & Hf & Hctl & Hlo & Hhi).
    exists c, σ, f, lo, hi. auto.
  - destruct (permissive_raises _ Hw).
Defined.

(** ** The other methods of [Lego] *)

Section composer.
Import Composer.
Context {engine : Lego.Engine} {toolkit : Toolkit}.
Implicit Types (w : world) (lego : Lego.t) (cb : callback) (o : HelperOptions).

Lemma extend_nil lego : extend [] lego = lego.
Proof. destruct lego. unfold extend. simpl. by rewrite app_nil_r. Qed.

Lemma composer_animate_run w :
  animate w
  = (Returned tt,
     World (this w) (page w) (renderOptions w) (created w)
       (trace w ++ callback_calls (this w) LoopAnimate)
       (scheduled w ++ [LoopAnimate])).
Proof. unfold animate. rewrite animate_run. reflexivity. Qed.

Lemma run_callback_run cb w :
  run_callback cb w
  = (Returned tt,
     World (this w) (page w) (renderOptions w) (created w)
       (trace w ++ callback_calls (this w) cb) (scheduled w ++ [cb])).
Proof.
  destruct cb as [|r s cam c k]; simpl.
  - apply composer_animate_run.
  - unfold debug_animate, bind, emit, modify. simpl.
    by rewrite <- !app_assoc.
Qed.

Lemma for_each_run_callback cbs : ∀ w,
  for_each cbs run_callback w
  = (Returned tt,
     World (this w) (page w) (renderOptions w) (created w)
       (trace w ++ concat (callback_calls (this w) <$> cbs))
       (scheduled w ++ cbs)).
Proof.
  induction cbs as [|cb cbs IH]; intros w; simpl.
  - rewrite !app_nil_r. by destruct w.
  - unfold bind. rewrite run_callback_run, IH. simpl.
    by rewrite <- !app_assoc.
Qed.

(** A frame runs every scheduled callback once, and leaves the schedule as
    it was. *)
Lemma composer_frame_run w :
  frame w
  = (Returned tt,
     World (this w) (page w) (renderOptions w) (created w)
       (trace w ++ concat (callback_calls (this w) <$> scheduled w))
       (scheduled w)).
Proof.
  unfold frame, bind, gets, modify. by rewrite for_each_run_callback.
Qed.

Lemma composer_frames_run n : ∀ w,
  frames n w
  = (Returned tt,
     World (this w) (page w) (renderOptions w) (created w)
       (trace w
        ++ concat (replicate n
                     (concat (callback_calls (this w) <$> scheduled w))))
       (scheduled w)).
Proof.
  induction n as [|n IH]; intros w; simpl.
  - rewrite app_nil_r. by destruct w.
  - unfold bind. rewrite composer_frame_run, IH. simpl.
    by rewrite <- app_assoc.
Qed.

Lemma initHelper_run o s el w :
  initHelper o s el w
  = (Returned tt,
     World (extend (helper_callbacks (created w) o) (this w)) (page w)
       (renderOptions w) (S (created w))
       (trace w ++ helper_calls (created w) o s el) (scheduled w)).
Proof.
  unfold initHelper, helper_calls, helper_callbacks, bind, new, emit, push,
    modify, ret.
  simpl.
  destruct (ToBoolean (grid o)); destruct (stats o); simpl;
    rewrite ?extend_nil, <- ?app_assoc; reflexivity.
Qed.

Lemma createGround_run w :
  createGround w
  = (Returned tt,
     World (with_ground (ground_mesh (created w)) (this w)) (page w)
       (renderOptions w) (S (created w))
       (trace w ++ [SceneAdd (Lego.scene (this w))
                      (OfMesh (ground_mesh (created w)))])
       (scheduled w)).
Proof. reflexivity. Qed.

Lemma debug_run w :
  let cb := DebugAnimate (Lego.renderer (this w)) (Lego.scene (this w))
              (Lego.camera (this w)) (Lego.control (this w)) (created w) in
  debug w
  = (Returned tt,
     World (this w)
       (Dom.appendChild (Lego.el (this w)) (stats_dom (created w)) (page w))
       (renderOptions w) (S (created w))
       (trace w ++ ShowPanel (created w) 0 :: callback_calls (this w) cb)
       (scheduled w ++ [cb])).
Proof.
  intros cb. unfold debug, bind, gets, new, emit, modify. simpl.
  unfold debug_animate, bind, emit, modify. simpl.
  by rewrite <- !app_assoc.
Qed.

Lemma render_run options w :
  let merged := merge (renderOptions w) options in
  let lego := extend (helper_callbacks (created w) (helper merged)) (this w) in
  let s := Lego.scene (this w) in
  render options w
  = (Returned tt,
     World lego (page w) merged (S (created w))
       (trace w
        ++ [SceneAdd s (OfGroup Model_group);
            SceneAdd s (OfLight (Lego.ambientLight (this w)));
            SceneAdd s (OfLight (Lego.directionalLight (this w)))]
        ++ helper_calls (created w) (helper merged) s (Lego.el (this w))
        ++ [AddClickHandle (Lego.camera (this w)) s]
        ++ callback_calls lego LoopAnimate)
       (scheduled w ++ [LoopAnimate])).
Proof.
  intros merged lego s. unfold render, bind, gets, emit, modify. simpl.
  rewrite initHelper_run. simpl. rewrite composer_animate_run. simpl.
  fold merged s lego. do 2 f_equal.
  unfold helper_calls. simpl. by repeat (rewrite <- app_assoc; simpl).
Qed.

End composer.

Section composer_counts.
Import Composer.
Context {engine : Lego.Engine} {toolkit : Toolkit}.
Implicit Types (w : world) (lego : Lego.t) (cb : callback) (tr : list call).

Lemma renders_app tr tr' : renders (tr ++ tr') = renders tr + renders tr'.
Proof. unfold renders. by rewrite filter_app, length_app. Qed.

Lemma renders_calls (fs : list Lego.Function) :
  renders (Loop <$> (Lego.Call <$> fs)) = 0.
Proof.
  unfold renders. induction fs as [|f fs IH]; [done|].
  simpl. rewrite filter_cons_False; [exact IH|]. simpl. tauto.
Qed.

(** A run of a scheduled callback renders once. *)
Lemma renders_callback_calls lego cb : renders (callback_calls lego cb) = 1.
Proof.
  destruct cb as [|r s cam c k]; [|reflexivity].
  simpl. unfold Lego.tick. rewrite fmap_app, renders_app, renders_calls.
  reflexivity.
Qed.

Lemma renders_concat lego cbs :
  renders (concat (callback_calls lego <$> cbs)) = length cbs.
Proof.
  induction cbs as [|cb cbs IH]; [done|].
  rewrite fmap_cons, concat_cons, renders_app, renders_callback_calls, IH.
  reflexivity.
Qed.

Lemma renders_replicate n tr :
  renders (concat (replicate n tr)) = n * renders tr.
Proof.
  induction n as [|n IH]; [done|].
  change (replicate (S n) tr) with (tr :: replicate n tr).
  by rewrite concat_cons, renders_app, IH.
Qed.

Lemma grounds_callback cb lego : filter is_ground (callback_calls lego cb) = [].
Proof.
  destruct cb as [|r s cam c k]; [|reflexivity].
  simpl. induction (Lego.tick lego) as [|e tr IHtr]; [done|].
  rewrite fmap_cons, filter_cons_False; [exact IHtr|]. simpl. tauto.
Qed.

Lemma grounds_callback_calls lego cbs :
  filter is_ground (concat (callback_calls lego <$> cbs)) = [].
Proof.
  induction cbs as [|cb cbs IH]; [done|].
  by rewrite fmap_cons, concat_cons, filter_app, IH, grounds_callback.
Qed.

Lemma grounds_helper_calls k o s el :
  filter is_ground (helper_calls k o s el) = [].
Proof.
  unfold helper_calls.
  destruct (ToBoolean (grid o)); destruct (stats o); reflexivity.
Qed.

(** What a step changes: it adds to the schedule one callback when it
    starts a loop and none otherwise, it adds debug callbacks after those
    there are, it adds one ground to the scene when it is [createGround], and
    it keeps the engine objects of the composer. *)
Lemma do_step_effect (s : step) w :
  ∃ w' cbs fs,
    do_step s w = (Returned tt, w')
    ∧ scheduled w' = scheduled w ++ cbs
    ∧ length cbs = (if starts_loop s then 1 else 0)
    ∧ Lego.debugList (this w') = Lego.debugList (this w) ++ fs
    ∧ same_engine (this w) (this w')
    ∧ length (filter is_ground (trace w'))
      = length (filter is_ground (trace w)) + (if makes_ground s then 1 else 0)
    ∧ (if makes_ground s then is_Some (Lego.ground (this w'))
       else Lego.ground (this w') = Lego.ground (this w)).
Proof.
  destruct s as [options| | |]; cbn [do_step starts_loop makes_ground].
  - eexists _, [LoopAnimate], _. split; [apply render_run|].
    cbn [scheduled this trace]. unfold extend. cbn [Lego.debugList Lego.ground].
    split; [done|]. split; [done|]. split; [reflexivity|].
    split; [by repeat split|]. split; [|done].
    rewrite !filter_app, grounds_helper_calls, grounds_callback.
    cbn. rewrite app_nil_r. lia.
  - eexists _, [], []. split; [apply createGround_run|].
    cbn [scheduled this trace]. unfold with_ground.
    cbn [Lego.debugList Lego.ground].
    rewrite !app_nil_r. split; [done|]. split; [done|]. split; [done|].
    split; [by repeat split|]. split; [|by eexists].
    rewrite filter_app, length_app. reflexivity.
  - eexists _, [_], []. split; [apply debug_run|].
    cbn [scheduled this trace]. rewrite app_nil_r.
    split; [done|]. split; [done|]. split; [done|].
    split; [by repeat split|]. split; [|done].
    rewrite filter_app, length_app, filter_cons_False by (simpl; tauto).
    rewrite grounds_callback. simpl. lia.
  - eexists _, [], []. split; [apply composer_frame_run|].
    cbn [scheduled this trace]. rewrite !app_nil_r.
    split; [done|]. split; [done|]. split; [done|].
    split; [by repeat split|]. split; [|done].
    rewrite filter_app, grounds_callback_calls, app_nil_r. lia.
Qed.

End composer_counts.

Section composer_steps.
Import Composer.
Context {engine : Lego.Engine} {toolkit : Toolkit}.
Implicit Types (w : world) (lego : Lego.t) (cb : callback) (tr : list call).

Lemma same_engine_trans lego1 lego2 lego3 :
  same_engine lego1 lego2 → same_engine lego2 lego3 → same_engine lego1 lego3.
Proof.
  unfold same_engine.
  intros (-> & -> & -> & -> & -> & -> & ->) (-> & -> & -> & -> & -> & -> & ->).
  done.
Qed.

Lemma steps_effect (steps : list step) : ∀ w,
  ∃ w' cbs fs,
    for_each steps do_step w = (Returned tt, w')
    ∧ scheduled w' = scheduled w ++ cbs
    ∧ length cbs = length (filter starts_loop steps)
    ∧ Lego.debugList (this w') = Lego.debugList (this w) ++ fs
    ∧ same_engine (this w) (this w')
    ∧ length (filter is_ground (trace w'))
      = length (filter is_ground (trace w))
        + length (filter makes_ground steps)
    ∧ match filter makes_ground steps with
      | [] => Lego.ground (this w') = Lego.ground (this w)
      | _ :: _ => is_Some (Lego.ground (this w'))
      end.
Proof.
  induction steps as [|s steps IH]; intros w.
  - exists w, [], []. simpl. rewrite !app_nil_r.
    repeat split; done.
  - destruct (do_step_effect s w)
      as (w1 & cbs1 & fs1 & Hs & Hsch1 & Hlen1 & Hdbg1 & Heng1 & Hgr1 & Hg1).
    destruct (IH w1)
      as (w2 & cbs2 & fs2 & Hr & Hsch2 & Hlen2 & Hdbg2 & Heng2 & Hgr2 & Hg2).
    exists w2, (cbs1 ++ cbs2), (fs1 ++ fs2).
    split; [simpl; unfold bind; by rewrite Hs|].
    split; [by rewrite Hsch2, Hsch1, app_assoc|].
    split.
    { rewrite length_app, Hlen1, Hlen2.
      destruct (starts_loop s) eqn:Hl.
      - rewrite filter_cons_True by (by apply Is_true_true_2). simpl. lia.
      - rewrite filter_cons_False by (by apply Is_true_false_2). lia. }
    split; [by rewrite Hdbg2, Hdbg1, app_assoc|].
    split; [by eapply same_engine_trans|].
    destruct (makes_ground s) eqn:Hm.
    + rewrite filter_cons_True by (by apply Is_true_true_2).
      split; [simpl; lia|].
      destruct (filter makes_ground steps); [by rewrite Hg2|done].
    + rewrite filter_cons_False by (by apply Is_true_false_2). split; [lia|].
      destruct (filter makes_ground steps); [by rewrite Hg2|done].
Qed.

Lemma frames_renders n w :
  renders (trace (frames n w).2)
  = renders (trace w) + n * length (scheduled w).
Proof.
  rewrite composer_frames_run. cbn [snd trace].
  by rewrite renders_app, renders_replicate, renders_concat.
Qed.

End composer_steps.

(** X9.  Every scheduled callback reschedules itself and nothing cancels
    it: any number of frames returns, leaves the schedule, the composer and
    the page as they were, and calls [renderer.render] once for each
    scheduled callback at every frame. *)
Theorem frames_keep_loops {engine : Lego.Engine} {toolkit : Composer.Toolkit}
    (n : nat) (w : Composer.world) :
  let r := Composer.frames n w in
  r.1 = Returned tt
  ∧ Composer.scheduled r.2 = Composer.scheduled w
  ∧ Composer.this r.2 = Composer.this w
  ∧ Composer.page r.2 = Composer.page w
  ∧ Composer.renders (Composer.trace r.2)
    = Composer.renders (Composer.trace w) + n * length (Composer.scheduled w).
Proof.
  intros r. unfold r. split; [by rewrite composer_frames_run|].
  split; [by rewrite composer_frames_run|].
  split; [by rewrite composer_frames_run|].
  split; [by rewrite composer_frames_run|].
  apply frames_renders.
Qed.

(** X10.  No method of the composer cancels a frame request or removes a
    debug callback.  Any sequence of calls of [render], [createGround] and
    [debug] and of frames returns; it adds one callback to the schedule for
    each call of [render] or [debug] and none otherwise, keeping those
    scheduled before; it keeps the debug callbacks there were, in their
    order, and the engine objects of the composer; and from then on every
    frame calls [renderer.render] once for each loop started. *)
Theorem steps_accumulate_loops {engine : Lego.Engine}
    {toolkit : Composer.Toolkit} (steps : list Composer.step)
    (w : Composer.world) (n : nat) :
  let r := for_each steps Composer.do_step w in
  let loops := length (filter Composer.starts_loop steps) in
  r.1 = Returned tt
  ∧ length (Composer.scheduled r.2) = length (Composer.scheduled w) + loops
  ∧ Composer.scheduled w `prefix_of` Composer.scheduled r.2
  ∧ Lego.debugList (Composer.this w) `prefix_of` Lego.debugList (Composer.this r.2)
  ∧ Composer.same_engine (Composer.this w) (Composer.this r.2)
  ∧ Composer.renders (Composer.trace (Composer.frames n r.2).2)
    = Composer.renders (Composer.trace r.2)
      + n * (length (Composer.scheduled w) + loops).
Proof.
  intros r loops. unfold r, loops.
  destruct (steps_effect steps w)
    as (w' & cbs & fs & -> & Hsch & Hlen & Hdbg & Heng & _).
  cbn [fst snd]. split; [done|].
  split; [by rewrite Hsch, length_app, Hlen|].
  split; [rewrite Hsch; by apply prefix_app_r|].
  split; [rewrite Hdbg; by apply prefix_app_r|].
  split; [done|].
  by rewrite frames_renders, Hsch, length_app, Hlen.
Qed.

(** X11.  Every call of [createGround] adds one more ground mesh to the
    scene and none is taken out: after any sequence of calls and frames the
    scene has been given as many grounds more as there were calls of
    [createGround], while the composer holds one, the last; without such a
    call its ground is what it was. *)
Theorem grounds_accumulate {engine : Lego.Engine} {toolkit : Composer.Toolkit}
    (steps : list Composer.step) (w : Composer.world) :
  let r := for_each steps Composer.do_step w in
  length (filter Composer.is_ground (Composer.trace r.2))
  = length (filter Composer.is_ground (Composer.trace w))
    + length (filter Composer.makes_ground steps)
  ∧ match filter Composer.makes_ground steps with
    | [] => Lego.ground (Composer.this r.2) = Lego.ground (Composer.this w)
    | _ :: _ => is_Some (Lego.ground (Composer.this r.2))
    end.
Proof.
  intros r. unfold r.
  destruct (steps_effect steps w) as (w' & cbs & fs & -> & _ & _ & _ & _ & Hgr).
  exact Hgr.
Qed.

(** X9, X10, X11, sample: in the world of the samples, [render] with stats,
    [createGround] twice, [debug], then a frame. *)
Lemma steps_sample :
  let steps := [Composer.Render Cases.stats_options; Composer.CreateGround;
                Composer.CreateGround; Composer.Debug; Composer.NextFrame] in
  let r := for_each steps Composer.do_step Cases.world in
  Composer.scheduled r.2
  = [Composer.LoopAnimate;
     Composer.DebugAnimate (engine := Sample.engine) "renderer" "scene" "camera" "control" 3]
  ∧ Lego.debugList (Composer.this r.2) = [10; 11; 100]
  ∧ Composer.renders (Composer.trace r.2) = 4
  ∧ length (filter Composer.is_ground (Composer.trace r.2)) = 2.
Proof. repeat split; reflexivity. Qed.

Section composer_loops.
Import Composer.
Context {engine : Lego.Engine} {toolkit : Toolkit}.

(** X12.  [debug] starts a loop of its own.  On a composer with nothing
    scheduled, it makes a stats panel, shows its first page and appends its
    element to the mount element; then, at the call and at every frame, it
    renders, then updates the control, then updates the panel, then asks for
    the next frame, in this order.  It calls no debug callback of the
    composer. *)
Theorem debug_loop_order (n : nat) (w : world) :
  scheduled w = [] →
  let lego := this w in
  let k := created w in
  let cb := DebugAnimate (Lego.renderer lego) (Lego.scene lego)
              (Lego.camera lego) (Lego.control lego) k in
  (debug ;; frames n) w
  = (Returned tt,
     World lego (Dom.appendChild (Lego.el lego) (stats_dom k) (page w))
       (renderOptions w) (S k)
       (trace w
        ++ ShowPanel k 0
        :: concat (replicate (S n)
                     [Loop (Lego.RendererRender (Lego.renderer lego)
                              (Lego.scene lego) (Lego.camera lego));
                      Loop (Lego.ControlUpdate (Lego.control lego));
                      StatsUpdate k;
                      RequestFrame cb]))
       [cb]).
Proof.
  intros Hs lego k cb. unfold bind. rewrite debug_run, composer_frames_run.
  cbn [this page renderOptions created trace scheduled]. rewrite Hs.
  fold lego k cb. cbn [app fmap list_fmap concat callback_calls].
  rewrite app_nil_r, <- app_assoc. reflexivity.
Qed.

(** X13.  [render] starts the loop of [animate].  On a composer with
    nothing scheduled, it adds the group of the models and the two lights to
    the scene, merges its options into the shared defaults, sets up the
    helper, adds the click handler and runs [animate]; the stats callback it
    registers is among the debug callbacks from this first run on, and every
    frame runs [animate] again. *)
Theorem render_loop (n : nat) (options : option RenderOptions) (w : world) :
  scheduled w = [] →
  let merged := merge (renderOptions w) options in
  let k := created w in
  let lego := extend (helper_callbacks k (helper merged)) (this w) in
  let s := Lego.scene (this w) in
  (render options ;; frames n) w
  = (Returned tt,
     World lego (page w) merged (S k)
       (trace w
        ++ [SceneAdd s (OfGroup Model_group);
            SceneAdd s (OfLight (Lego.ambientLight (this w)));
            SceneAdd s (OfLight (Lego.directionalLight (this w)))]
        ++ helper_calls k (helper merged) s (Lego.el (this w))
        ++ [AddClickHandle (Lego.camera (this w)) s]
        ++ concat (replicate (S n) (Loop <$> Lego.tick lego)))
       [LoopAnimate])
  ∧ Lego.debugList lego
    = Lego.debugList (this w) ++ helper_callbacks k (helper merged).
Proof.
  intros Hs merged k lego s. split; [|reflexivity].
  unfold bind. rewrite render_run, composer_frames_run.
  cbn [this page renderOptions created trace scheduled]. rewrite Hs.
  fold merged k lego s. cbn [app fmap list_fmap concat callback_calls].
  rewrite app_nil_r. do 2 f_equal. by repeat (rewrite <- app_assoc; simpl).
Qed.

(** X14.  [initHelper] tests [stats] with [typeof] and [grid] with [&&].
    When both hold the same number, the stats callback is registered
    whatever the number, zero and [nan] included, while the grid is added
    only for a number that is neither a zero nor [nan]. *)
Theorem initHelper_numbers (o : HelperOptions) (s : Lego.tScene)
    (el : Dom.node) (w : world) (x : float) :
  grid o = JS.VNumber x →
  stats o = JS.VNumber x →
  let k := created w in
  let r := initHelper o s el w in
  r.1 = Returned tt
  ∧ Lego.debugList (this r.2) = Lego.debugList (this w) ++ [addStats k x]
  ∧ trace r.2
    = trace w
      ++ NewHelper k s el
      :: (if (PrimFloat.eqb x 0 || negb (PrimFloat.eqb x x))%bool then []
          else [AddGrid k (JS.VNumber x)])
      ++ [AddStats k x].
Proof.
  intros Hg Hst k r. unfold r. rewrite initHelper_run.
  unfold helper_callbacks, helper_calls. rewrite Hg, Hst. fold k.
  cbn [fst snd this trace extend Lego.debugList ToBoolean].
  split; [done|]. split; [done|].
  by destruct (PrimFloat.eqb x 0), (PrimFloat.eqb x x).
Qed.

(** X15.  The options of a call of [render] stay in the shared defaults:
    after two calls the defaults are the first options merged into them, then
    the second; each call registers the stats callback its merged options ask
    for, and each starts a loop. *)
Theorem render_twice (o1 o2 : option RenderOptions) (w : world) :
  let r := (render o1 ;; render o2) w in
  let m1 := merge (renderOptions w) o1 in
  let m2 := merge m1 o2 in
  r.1 = Returned tt
  ∧ renderOptions r.2 = m2
  ∧ Lego.debugList (this r.2)
    = Lego.debugList (this w)
      ++ helper_callbacks (created w) (helper m1)
      ++ helper_callbacks (S (created w)) (helper m2)
  ∧ scheduled r.2 = scheduled w ++ [LoopAnimate; LoopAnimate].
Proof.
  intros r m1 m2. unfold r, bind. rewrite render_run.
  cbv zeta. rewrite render_run.
  cbn [fst snd this page renderOptions created trace scheduled].
  fold m1 m2. unfold extend. cbn [Lego.debugList].
  split; [done|]. split; [done|]. split; [by rewrite <- app_assoc|].
  by rewrite <- app_assoc.
Qed.

End composer_loops.

(** X12, witness: the world of the samples, two frames. *)
Lemma debug_loop_order_witness :
  (Composer.debug ;; Composer.frames 2) Cases.world
  = (Returned tt,
     Composer.World Sample.lego
       (Dom.appendChild 1%positive 20%positive Sample.page)
       (Composer.renderOptions Cases.world) 1
       (let step :=
          [Composer.Loop (Lego.RendererRender (engine := Sample.engine) "renderer" "scene" "camera");
           Composer.Loop (Lego.ControlUpdate (engine := Sample.engine) "control");
           Composer.StatsUpdate 0;
           Composer.RequestFrame
             (Composer.DebugAnimate (engine := Sample.engine) "renderer" "scene" "camera" "control" 0)] in
        Composer.ShowPanel 0 0 :: step ++ step ++ step)
       [Composer.DebugAnimate (engine := Sample.engine) "renderer" "scene" "camera" "control" 0]).
Proof.
  rewrite (debug_loop_order (toolkit := Cases.toolkit) 2 Cases.world eq_refl).
  reflexivity.
Defined.

(** X13, witness: the world of the samples, options that ask for stats, one
    frame: the callback 100 is called in the first run and in the frame. *)
Lemma render_loop_witness :
  ∃ w,
    (Composer.render Cases.stats_options ;; Composer.frames 1) Cases.world
    = (Returned tt, w)
    ∧ Lego.debugList (Composer.this w) = [10; 11; 100]
    ∧ take 3 (drop 6 (Composer.trace w))
      = [Composer.Loop (Lego.Call (engine := Sample.engine) 10);
         Composer.Loop (Lego.Call (engine := Sample.engine) 11);
         Composer.Loop (Lego.Call (engine := Sample.engine) 100)]
    ∧ drop 12 (Composer.trace w) = take 6 (drop 6 (Composer.trace w)).
Proof.
  destruct (render_loop (toolkit := Cases.toolkit) 1 Cases.stats_options
              Cases.world eq_refl) as [Hrun _].
  eexists. split; [exact Hrun|]. repeat split; reflexivity.
Defined.

(** X14, witness: zero for both, in the world of the samples. *)
Lemma initHelper_numbers_witness :
  let r := Composer.initHelper (toolkit := Cases.toolkit) Cases.with_stats "scene"
             1%positive Cases.world in
  Lego.debugList (Composer.this r.2) = [10; 11; 100]
  ∧ Composer.trace r.2
    = [Composer.NewHelper (engine := Sample.engine) 0 "scene" 1%positive; Composer.AddStats 0 0].
Proof.
  destruct (initHelper_numbers (toolkit := Cases.toolkit) Cases.with_stats
              "scene" 1%positive Cases.world 0%float eq_refl eq_refl)
    as (_ & Hdbg & Htr).
  split; [exact Hdbg|exact Htr].
Defined.



(** ** Sessions of [add] with a panel that refuses a repeated name *)

Section sessions.
Import JS DatGui.
Context {E : Ecma} {P : Panel}.
Implicit Types (h : heap) (gui : GUI) (calls : list (Debug.t * string * loc)).

Lemma add_all_cons this name options calls (σ : Debug.state) :
  Cases.add_all ((this, name, options) :: calls) σ
  = match Debug.add this name options σ with
    | (Returned _, σ') => Cases.add_all calls σ'
    | (Thrown e, σ') => (Thrown e, σ')
    end.
Proof.
  unfold Cases.add_all. simpl. unfold bind, ret.
  by destruct (Debug.add this name options σ) as [[c|e] σ'].
Qed.

(** X16.  Take any panel that refuses a folder whose name one of its
    folders has, whatever else it refuses.  When a session of calls of [add]
    returns, the names of the calls are pairwise distinct, none was the name
    of a folder of the panel, and the panel has one folder more for each
    call, in the order of the calls. *)
Theorem session_returned_names_new calls h gui :
  (∀ gui' name, name ∈ folder_name <$> gui' →
     is_Some (refuses_folder gui' name)) →
  let names := (λ call, call.1.2) <$> calls in
  let r := Cases.add_all calls (h, gui) in
  r.1 = Returned tt →
  NoDup names
  ∧ (∀ name, name ∈ names → name ∉ folder_name <$> gui)
  ∧ folder_name <$> r.2.2 = (folder_name <$> gui) ++ names.
Proof.
  intros Hpanel. revert h gui.
  induction calls as [|[[this name] options] calls IH];
    intros h gui names r Hret.
  - unfold r, names. simpl. rewrite app_nil_r.
    split; [constructor|]. split; [|done]. by intros ? ?%elem_of_nil.
  - unfold r, names in *. rewrite add_all_cons in Hret |- *.
    rewrite fmap_cons. cbn [fst snd].
    pose proof (add_run this name options h gui) as Hrun. simpl in Hrun.
    destruct (Debug.add this name options (h, gui)) as [[c|e] σ];
      [|discriminate Hret].
    destruct Hrun as (Hnone & _ & ->).
    assert (Hnew : name ∉ folder_name <$> gui).
    { intros Hin. destruct (Hpanel gui name Hin) as [e He]. congruence. }
    destruct (IH _ _ Hret) as (Hnd & Hall & Hnames).
    rewrite fmap_app in Hall, Hnames. simpl in Hall, Hnames.
    split; [|split].
    + apply NoDup_cons. split; [|done].
      intros Hin. apply (Hall name Hin), elem_of_app. right.
      apply list_elem_of_here.
    + intros n [->|Hin]%elem_of_cons; [done|].
      intros Hn. apply (Hall n Hin), elem_of_app. by left.
    + by rewrite Hnames, <- app_assoc.
Qed.

End sessions.

(** X16, witness: two calls, with the names [Position] and [Again], on a
    panel without folders that refuses a repeated name. *)
Lemma session_returned_names_new_witness :
  let r :=
    Cases.add_all (E := Sample.no_strings) (P := DatGui.unique_folder_names)
      [(Debug.constructor None, "Position", 1%positive);
       (Debug.constructor None, "Again", 1%positive)]
      (Sample.position_heap, []) in
  r.1 = Returned tt
  ∧ NoDup ["Position"; "Again"]
  ∧ DatGui.folder_name <$> r.2.2 = ["Position"; "Again"].
Proof.
  intros r.
  assert (Hpanel : ∀ gui' name, name ∈ DatGui.folder_name <$> gui' →
            is_Some (DatGui.refuses_folder (Panel := DatGui.unique_folder_names)
                       gui' name)).
  { intros gui' name Hin. simpl. rewrite bool_decide_eq_true_2 by done. eauto. }
  destruct (session_returned_names_new (E := Sample.no_strings)
              (P := DatGui.unique_folder_names)
              [(Debug.constructor None, "Position", 1%positive);
               (Debug.constructor None, "Again", 1%positive)]
              Sample.position_heap [] Hpanel eq_refl)
    as (Hnd & _ & Hnames).
  split; [reflexivity|]. split; [exact Hnd|exact Hnames].
Defined.
